(** * filmaffinity_exporter.py: a shallow embedding and its properties

    The development follows [src/filmaffinity_exporter.py].  The three
    libraries the script calls into are kept at their interface:

    - [requests]: the network is a function from a request to what
      [requests.get] does with it (raise, or return a response);
    - [bs4]: a parsed page is a tree of tags, strings and comments, with
      [find], [find_all], [.text], [.get] and [.parent] as documented;
      the parser itself is a parameter;
    - [reportlab.platypus]: flowables are data (the constructor calls the
      script makes); what can raise while they are built and laid out
      is a parameter: decoding the bytes of an image, parsing the markup
      of a paragraph, building the document.

    Text is modelled by [string]: characters are the code points below
    256. *)

From Stdlib Require Import List String Ascii Bool Arith NArith ZArith Lia.
From Stdlib Require Import DecimalString DecimalNat Decimal QArith.
From Stdlib Require Finite.
Import ListNotations.
Local Open Scope string_scope.
Local Open Scope list_scope.


Set Warnings "-register-all".

(* ------------------------------------------------------------------ *)
(** ** Python values used by the script *)

Module Py.

(** An exception object: its class and [str(e)]. *)
Record exn : Type := Exception { exn_class : string; exn_str : string }.

(** The result of evaluating an expression that may raise. *)
Inductive result (A : Type) : Type :=
| Ok (a : A)
| Err (e : exn).
Arguments Ok {A} a.
Arguments Err {A} e.

Definition bind {A B} (r : result A) (k : A -> result B) : result B :=
  match r with
  | Ok a => k a
  | Err e => Err e
  end.

(** [str.isspace] on one character, for the code points below 256. *)
Definition isspace (c : ascii) : bool :=
  let n := N_of_ascii c in
  (((9 <=? n) && (n <=? 13)) || ((28 <=? n) && (n <=? 32))
   || (n =? 133) || (n =? 160))%N.

Fixpoint lstrip (s : string) : string :=
  match s with
  | EmptyString => EmptyString
  | String c s' => if isspace c then lstrip s' else s
  end.

Fixpoint rstrip (s : string) : string :=
  match s with
  | EmptyString => EmptyString
  | String c s' =>
      match rstrip s' with
      | EmptyString => if isspace c then EmptyString else String c EmptyString
      | r => String c r
      end
  end.

(** [s.strip()] *)
Definition strip (s : string) : string := rstrip (lstrip s).

(** [s.split(sep)] for a one-character separator. *)
Fixpoint split (sep : ascii) (s : string) : list string :=
  match s with
  | EmptyString => [EmptyString]
  | String c s' =>
      if Ascii.eqb c sep then EmptyString :: split sep s'
      else match split sep s' with
           | w :: ws => String c w :: ws
           | [] => [String c EmptyString]
           end
  end.

(** [l[0]] *)
Definition item0 {A} (l : list A) : result A :=
  match l with
  | x :: _ => Ok x
  | [] => Err (Exception "IndexError" "list index out of range")
  end.

(** Truth value of a [str]. *)
Definition truthy (s : string) : bool :=
  match s with
  | EmptyString => false
  | String _ _ => true
  end.

(** [str(n)] for a non-negative [int]. *)
Definition str_of_nat (n : nat) : string :=
  NilZero.string_of_uint (Nat.to_uint n).

End Py.

Import Py.

Declare Scope py_scope.
Delimit Scope py_scope with py.
Notation "x <- e ;; k" := (Py.bind e (fun x => k))
  (at level 100, e at next level, right associativity) : py_scope.

(* ------------------------------------------------------------------ *)
(** ** The node tree of [bs4] *)

Module Bs4.

(** A page element.  [classes] is the value of the [class] attribute,
    which [bs4] keeps as the list of its whitespace-separated tokens;
    [attrs] holds the other attributes. *)
Inductive node : Type :=
| NavigableString (s : string)
| Comment (s : string)
| Tag (name : string) (classes : list string)
      (attrs : list (string * string)) (contents : list node).

(** [tag.descendants]: every element below [n], in document order. *)
Fixpoint descendants (n : node) : list node :=
  match n with
  | Tag _ _ _ cs => flat_map (fun c => c :: descendants c) cs
  | _ => []
  end.

(** The descendants of [n], each paired with its [.parent]. *)
Fixpoint descendants_with_parent (n : node) : list (node * node) :=
  match n with
  | Tag _ _ _ cs => flat_map (fun c => (c, n) :: descendants_with_parent c) cs
  | _ => []
  end.

(** Does [n] match [find(name, class_=cls)]?  A tag matches when its
    name is [name] and [cls] is one of its classes. *)
Definition matches (name cls : string) (n : node) : bool :=
  match n with
  | Tag nm classes _ _ => String.eqb nm name && existsb (String.eqb cls) classes
  | _ => false
  end.

(** [tag.find_all(name, class_=cls)] *)
Definition find_all (name cls : string) (n : node) : list node :=
  filter (matches name cls) (descendants n).

(** [tag.find(name, class_=cls)]: the first match, or [None]. *)
Definition find (name cls : string) (n : node) : option node :=
  hd_error (find_all name cls n).

(** [find_all], each result with its [.parent]. *)
Definition find_all_with_parent (name cls : string) (n : node)
  : list (node * node) :=
  filter (fun mp => matches name cls (fst mp)) (descendants_with_parent n).

(** The exception of [None.find(...)]. *)
Definition AttributeError : exn :=
  Exception "AttributeError" "'NoneType' object has no attribute 'find'".

(** [x.find(name, class_=cls)] where [x] is the result of an earlier
    [find]: on [None] the attribute access raises. *)
Definition find_in (x : option node) (name cls : string)
  : result (option node) :=
  match x with
  | Some t => Ok (find name cls t)
  | None => Err AttributeError
  end.

(** [tag.text]: the strings below the tag, concatenated; comments are
    left out. *)
Fixpoint text (n : node) : string :=
  match n with
  | NavigableString s => s
  | Comment _ => EmptyString
  | Tag _ _ _ cs => String.concat EmptyString (map text cs)
  end.

Fixpoint assoc (k : string) (l : list (string * string)) : option string :=
  match l with
  | [] => None
  | (k', v) :: l' => if String.eqb k' k then Some v else assoc k l'
  end.

(** [tag.get(key, default)] *)
Definition get (n : node) (key default : string) : string :=
  match n with
  | Tag _ _ attrs _ =>
      match assoc key attrs with
      | Some v => v
      | None => default
      end
  | _ => default
  end.

(** [BeautifulSoup(markup, 'html.parser')]: the document object is a
    tag named [[document]] over the parsed top-level elements. *)
Definition BeautifulSoup (top : list node) : node :=
  Tag "[document]" [] [] top.

End Bs4.

Import Bs4.

(* ------------------------------------------------------------------ *)
(** ** Field extraction *)

(** The dictionary built by [_extract_movie_data]: always the same
    eight keys, each holding a [str]. *)
Record movie_data : Type := MovieData {
  title : string;
  year : string;
  rating : string;
  own_rating : string;
  director : string;
  cast : string;
  poster_url : string;
  flag_url : string
}.

(** [elem.text.strip() if elem else default] *)
Definition text_or (elem : option node) (default : string) : string :=
  match elem with
  | Some e => strip (text e)
  | None => default
  end.

Definition _extract_movie_data (movie parent_element : node)
  : result movie_data :=
  (title_elem <-
     find_in (find "div" "mc-title" movie) "a" "d-md-inline-block" ;;
   let year_elem := find "span" "mc-year" movie in
   rating_elem <- find_in (find "div" "fa-avg-rat-box" movie) "div" "avg" ;;
   let own_rating_elem := find "div" "fa-user-rat-box" parent_element in
   let director_elem := find "div" "mc-director" movie in
   let cast_elem := find "div" "mc-cast" movie in
   let poster_img := find "img" "lazyload" movie in
   let flag_img := find "img" "nflag" movie in
   poster <- match poster_img with
             | Some img => item0 (split " " (get img "data-srcset" EmptyString))
             | None => Ok EmptyString
             end ;;
   Ok {| title := text_or title_elem "Unknown";
         year := text_or year_elem EmptyString;
         rating := text_or rating_elem EmptyString;
         own_rating := text_or own_rating_elem EmptyString;
         director := text_or director_elem EmptyString;
         cast := text_or cast_elem EmptyString;
         poster_url := poster;
         flag_url := match flag_img with
                     | Some img =>
                         "https://www.filmaffinity.com/" ++ get img "src" EmptyString
                     | None => EmptyString
                     end |})%py.

(* ------------------------------------------------------------------ *)
(** ** [requests] *)

Module Requests.

(** One call of [requests.get]: the URL and the [headers=] argument
    ([None] when the call passes none, so that the library's own
    default headers go out). *)
Record request : Type := Get {
  url : string;
  sent_headers : option (list (string * string))
}.

Record Response : Type := mkResponse {
  status_code : Z;
  content : string
}.

(** [response.text]: the body, decoded. *)
Definition text_of (r : Response) : string := content r.

(** What [requests.get] does: raise, or return a response (whatever
    its status: the call does not raise on an HTTP error status). *)
Inductive reply : Type :=
| Raises (e : exn)
| Responds (r : Response).

End Requests.

Import Requests.

(* ------------------------------------------------------------------ *)
(** ** [reportlab.platypus] flowables, as data *)

Module Platypus.

Definition inch : Q := 72.

Record ParagraphStyle : Type := mkStyle {
  style_name : string;
  parent : string;
  fontSize : Z;
  leading : option Z;
  spaceAfter : option Z;
  alignment : option string;
  textColor : string;
  fontName : string
}.

(** One [TableStyle] command: [(op, (sc, sr), (ec, er), args...)]. *)
Record command : Type := Cmd {
  op : string;
  start : Z * Z;
  stop : Z * Z;
  args : list string
}.

(** A table cell holds a string, a flowable or a list of flowables. *)
Inductive cell (F : Type) : Type :=
| CellStr (s : string)
| CellFlowable (f : F)
| CellList (fs : list F).
Arguments CellStr {F} s.
Arguments CellFlowable {F} f.
Arguments CellList {F} fs.

Inductive flowable : Type :=
| Paragraph (markup : string) (style : ParagraphStyle)
| Spacer (width height : Q)
| Image (data : string) (drawWidth drawHeight : Q)
| Table (data : list (list (cell flowable))) (colWidths : list Q)
        (rowHeights : option (list Q)) (style : list command).

(** [SimpleDocTemplate(...)] together with the list given to
    [doc.build]. *)
Record document : Type := mkDocument {
  filename : string;
  pagesize : string;
  rightMargin : Z;
  leftMargin : Z;
  topMargin : Z;
  bottomMargin : Z;
  story : list flowable
}.

End Platypus.

Import Platypus.

(* ------------------------------------------------------------------ *)
(** ** The exporter object and its effects *)

(** The attributes [__init__] sets and no method changes. *)
Record exporter : Type := Exporter {
  user_id : string;
  base_url : string;
  headers : list (string * string)
}.

(** What a method can change: the list [self.movies], the requests
    sent so far and the lines printed so far (both oldest first). *)
Record state : Type := State {
  movies : list movie_data;
  sent : list request;
  printed : list string
}.

(** A method body: it runs from a state and either returns or raises,
    leaving a state behind in both cases. *)
Definition M (A : Type) : Type := state -> result A * state.

Definition ret {A} (a : A) : M A := fun s => (Ok a, s).

Definition bindM {A B} (m : M A) (k : A -> M B) : M B :=
  fun s =>
    match m s with
    | (Ok a, s') => k a s'
    | (Err e, s') => (Err e, s')
    end.

Declare Scope M_scope.
Delimit Scope M_scope with M.
Notation "x <- e ;; k" := (bindM e (fun x => k))
  (at level 100, e at next level, right associativity) : M_scope.
Notation "e ;;; k" := (bindM e (fun _ => k))
  (at level 100, right associativity) : M_scope.

(** An expression without effects, inside a method. *)
Definition lift {A} (r : result A) : M A := fun s => (r, s).

(** [try: body except Exception as e: handler e] *)
Definition try_except {A} (body : M A) (handler : exn -> M A) : M A :=
  fun s =>
    match body s with
    | (Ok a, s') => (Ok a, s')
    | (Err e, s') => handler e s'
    end.

(** [print(line)] *)
Definition print (line : string) : M unit :=
  fun s => (Ok tt, {| movies := movies s; sent := sent s;
                      printed := printed s ++ [line] |}).

(** [self.movies.append(d)] *)
Definition movies_append (d : movie_data) : M unit :=
  fun s => (Ok tt, {| movies := movies s ++ [d]; sent := sent s;
                      printed := printed s |}).

(** [for x in l: body x] *)
Fixpoint for_each {A} (l : list A) (body : A -> M unit) : M unit :=
  match l with
  | [] => ret tt
  | x :: l' => (body x ;;; for_each l' body)%M
  end.

Definition __init__ (uid : string) : exporter * state :=
  ({| user_id := uid;
      base_url := "https://www.filmaffinity.com/es/userratings.php?user_id="
                  ++ uid ++ "&chv=list&orderby=rating";
      headers :=
        [("User-Agent", "Mozilla/5.0 (Windows NT 10.0; Win64; x64) AppleWebKit/537.36 (KHTML, like Gecko) Chrome/91.0.4472.124 Safari/537.36");
         ("Accept", "text/html,application/xhtml+xml,application/xml;q=0.9,image/webp,*/*;q=0.8");
         ("Accept-Language", "en-US,en;q=0.9");
         ("Connection", "keep-alive")] |},
   {| movies := []; sent := []; printed := [] |}).

(** The dictionary of styles [_create_styles] returns. *)
Record styles : Type := Styles {
  title_style : ParagraphStyle;
  movie_title_style : ParagraphStyle;
  rating_style : ParagraphStyle;
  general_rating_style : ParagraphStyle;
  movie_info_style : ParagraphStyle
}.

(** [_create_styles] *)
Definition _create_styles : styles :=
  {| title_style :=
       mkStyle "CustomTitle" "Heading1" 20 None (Some 25%Z) (Some "TA_CENTER")
               "#1F497D" "Helvetica-Bold";
     movie_title_style :=
       mkStyle "MovieTitle" "Heading2" 14 None (Some 8%Z) None
               "#2E74B5" "Helvetica-Bold";
     rating_style :=
       mkStyle "RatingStyle" "Normal" 12 None (Some 4%Z) None
               "#C00000" "Helvetica";
     general_rating_style :=
       mkStyle "GeneralRatingStyle" "Normal" 10 None (Some 4%Z) None
               "#C00000" "Helvetica";
     movie_info_style :=
       mkStyle "MovieInfo" "Normal" 10 (Some 14%Z) None None
               "#333333" "Helvetica" |}.

(** [_create_movie_separator] *)
Definition _create_movie_separator : flowable :=
  Table [[CellStr EmptyString]] [(65 # 10) * inch] (Some [1])
        [Cmd "LINEABOVE" (0, 0)%Z (-1, 0)%Z ["0.5"; "#CCCCCC"];
         Cmd "TOPPADDING" (0, 0)%Z (-1, 0)%Z ["15"];
         Cmd "BOTTOMPADDING" (0, 0)%Z (-1, 0)%Z ["15"]].

(** [f"{self.base_url}&p={page}"] *)
Definition listing_url (self : exporter) (page : nat) : string :=
  (base_url self ++ "&p=" ++ str_of_nat page)%string.

(** The table [_create_movie_title_table] builds around its one row. *)
Definition title_table (row : list (cell flowable)) : flowable :=
  Table [row] [(52 # 10) * inch; (3 # 10) * inch] None
        [Cmd "VALIGN" (0, 0)%Z (-1, -1)%Z ["MIDDLE"];
         Cmd "ALIGN" (0, 0)%Z (0, 0)%Z ["LEFT"];
         Cmd "ALIGN" (1, 0)%Z (1, 0)%Z ["RIGHT"];
         Cmd "LEFTPADDING" (0, 0)%Z (-1, -1)%Z ["0"];
         Cmd "RIGHTPADDING" (0, 0)%Z (-1, -1)%Z ["0"]].

(** The table built for one movie in the loop of [export_to_pdf]. *)
Definition movie_table (poster_cell info_cell : list flowable) : flowable :=
  Table [[CellList poster_cell; CellList info_cell]]
        [1 * inch; (55 # 10) * inch] None
        [Cmd "VALIGN" (0, 0)%Z (-1, -1)%Z ["TOP"];
         Cmd "LEFTPADDING" (0, 0)%Z (-1, -1)%Z ["0"];
         Cmd "RIGHTPADDING" (0, 0)%Z (-1, -1)%Z ["0"]].

(* ------------------------------------------------------------------ *)
(** ** Vocabulary of the statements *)

Definition empty_state : state := {| movies := []; sent := []; printed := [] |}.

(** [t] is what a run added, [s] what was there before. *)
Definition state_app (s t : state) : state :=
  {| movies := movies s ++ movies t;
     sent := sent s ++ sent t;
     printed := printed s ++ printed t |}.

(** The first match of [find] among the elements [l] and what lies
    below them, in document order. *)
Definition first_match (name cls : string) (l : list node) : option node :=
  hd_error (filter (matches name cls)
                   (flat_map (fun c => c :: descendants c) l)).

(** A labelled line of the info cell, present when [value] is not empty. *)
Definition info_line (label value : string) (sty : ParagraphStyle)
  : list flowable :=
  if truthy value then [Paragraph (label ++ value) sty] else [].

(** [m] only appends to the state: run after [s ++ t], it does to [t]
    what it does when [s] is not there. *)
Definition framed {A} (m : M A) : Prop :=
  forall s t, m (state_app s t) = (fst (m t), state_app s (snd (m t))).

(** [s] holds no space character. *)
Definition no_space (s : string) : Prop :=
  forall c, In c (list_ascii_of_string s) -> c <> " "%char.

(** The status codes of a successful response. *)
Definition is_2xx (code : Z) : bool := ((200 <=? code) && (code <? 300))%Z.

(* ------------------------------------------------------------------ *)
(** ** A small site, for the examples *)

Module Fixture.

Definition el (name : string) (cls : list string) (cs : list node) : node :=
  Tag name cls [] cs.

Definition poster_alien : string :=
  "https://pics.filmaffinity.com/alien-msmall.jpg".

Definition srcset_alien : string :=
  "https://pics.filmaffinity.com/alien-msmall.jpg 150w, https://pics.filmaffinity.com/alien-mmed.jpg 300w".

Definition poster_lost : string :=
  "https://pics.filmaffinity.com/lost-msmall.jpg".

(** A record node with the sub-nodes the extractor looks for. *)
Definition item_alien : node :=
  el "div" ["col-md-9"; "user-ratings-movie-item"]
     [el "div" ["mc-title"]
         [Tag "a" ["d-none"; "d-md-inline-block"] [("href", "/es/film1.html")]
              [NavigableString "  Alien "];
          Tag "img" ["nflag"] [("src", "/images/es.gif")] []];
      el "span" ["mc-year"] [NavigableString "1979"];
      el "div" ["fa-avg-rat-box"] [el "div" ["avg"] [NavigableString " 8,0 "]];
      Tag "img" ["lazyload"] [("data-srcset", srcset_alien)] []].

Definition rating_box (v : string) : node :=
  el "div" ["fa-user-rat-box"] [NavigableString v].

(** Its context node: the record node, then the personal rating. *)
Definition row_alien : node :=
  el "div" ["row"] [item_alien; rating_box "8"].

(** A record node with nothing inside. *)
Definition item_bare : node := el "div" ["user-ratings-movie-item"] [].

(** A record node with both containers and a personal-rating region
    of its own, which is empty. *)
Definition item_own_empty : node :=
  el "div" ["user-ratings-movie-item"]
     [el "div" ["mc-title"] [];
      el "div" ["fa-avg-rat-box"] [];
      el "div" ["fa-user-rat-box"] []].

Definition row_own_empty : node :=
  el "div" ["row"] [item_own_empty; rating_box "8"].

(** A record node with both containers and nothing else. *)
Definition item_plain : node :=
  el "div" ["user-ratings-movie-item"]
     [el "div" ["mc-title"] []; el "div" ["fa-avg-rat-box"] []].

Definition self123 : exporter := fst (__init__ "123").
Definition state0 : state := snd (__init__ "123").

Definition toy_parser (markup : string) : list node :=
  if String.eqb markup "page-alien" then [row_alien] else [].

Definition toy_image_setup (data : string) : result unit :=
  if String.prefix "PNG" data then Ok tt
  else Err (Exception "UnidentifiedImageError" "cannot identify image file").

Definition flag_es : string := "https://www.filmaffinity.com//images/es.gif".

(** Page 1 holds one record, page 2 none; the poster of Alien is
    served, the flag is unreachable, and the poster of Lost answers 404
    with an image.  A URL without scheme is refused before any request
    is made. *)
Definition site (r : request) : reply :=
  if negb (String.prefix "http://" (url r) || String.prefix "https://" (url r))
  then Raises (Exception "MissingSchema" "No scheme supplied")
  else if String.eqb (url r) (listing_url self123 1)
  then Responds (mkResponse 200 "page-alien")
  else if String.eqb (url r) (listing_url self123 2)
  then Responds (mkResponse 200 EmptyString)
  else if String.eqb (url r) poster_alien
  then Responds (mkResponse 200 "PNG-poster")
  else if String.eqb (url r) flag_es
  then Raises (Exception "ConnectionError" "connection refused")
  else if String.eqb (url r) poster_lost
  then Responds (mkResponse 404 "PNG-placeholder")
  else Responds (mkResponse 404 "<html>not found</html>").

(** The same first page, answered with status 203. *)
Definition site_203 (r : request) : reply :=
  if String.eqb (url r) (listing_url self123 1)
  then Responds (mkResponse 203 "page-alien")
  else Responds (mkResponse 404 "<html>not found</html>").

Definition alien : movie_data :=
  MovieData "Alien" "1979" "8,0" "8" EmptyString EmptyString
            poster_alien flag_es.

(** Two records that share one poster URL and have no flag. *)
Definition twin_a : movie_data :=
  MovieData "A" EmptyString EmptyString EmptyString EmptyString EmptyString
            poster_alien EmptyString.
Definition twin_b : movie_data :=
  MovieData "B" EmptyString EmptyString EmptyString EmptyString EmptyString
            poster_alien EmptyString.


Definition with_movies (ms : list movie_data) : state :=
  {| movies := ms; sent := []; printed := [] |}.

(** Page 1 as on [site]; the request for page 2 fails. *)
Definition site_page2_down (r : request) : reply :=
  if String.eqb (url r) (listing_url self123 1)
  then Responds (mkResponse 200 "page-alien")
  else Raises (Exception "ConnectionError" "connection reset").

(** A context node holding a complete record node and, after it, a
    record node with nothing inside. *)
Definition row_mixed : node :=
  el "div" ["row"] [item_alien; rating_box "8"; item_bare].

Definition toy_parser_mixed (markup : string) : list node :=
  if String.eqb markup "page-mixed" then [row_mixed] else [].

(** Page 1 holds the two record nodes of [row_mixed]. *)
Definition site_mixed (r : request) : reply :=
  if String.eqb (url r) (listing_url self123 1)
  then Responds (mkResponse 200 "page-mixed")
  else Responds (mkResponse 404 "<html>not found</html>").

(** A record without poster and without flag. *)
Definition bare_record : movie_data :=
  MovieData "Unknown" EmptyString EmptyString EmptyString EmptyString
            EmptyString EmptyString EmptyString.

(** What [main] has printed when retrieval starts. *)
Definition greeted : state :=
  {| movies := []; sent := [];
     printed := ["Please enter your FilmAffinity user ID: ";
                 "Getting rated movies..."] |}.

(** A record whose title opens a tag and never closes it. *)
Definition bold : movie_data :=
  MovieData "<b>bold" EmptyString EmptyString EmptyString EmptyString
            EmptyString poster_alien flag_es.

(** How often [pat] occurs in [s]. *)
Fixpoint occurrences (pat s : string) : nat :=
  match s with
  | EmptyString => 0
  | String _ s' => (if String.prefix pat s then 1 else 0) + occurrences pat s'
  end.

(** A markup parser that refuses a text whose bold tags do not pair up. *)
Definition toy_Paragraph_init (markup : string) (style : ParagraphStyle)
  : result unit :=
  if Nat.eqb (occurrences "<b>" markup) (occurrences "</b>" markup) then Ok tt
  else Err (Exception "ValueError" "Parse error: saw </para> instead of expected </b>").

(** A build that always succeeds. *)
Definition build_ok (doc : document) : result unit := Ok tt.

(** A build that cannot write its file. *)
Definition build_denied (doc : document) : result unit :=
  Err (Exception "PermissionError" "Permission denied").

End Fixture.

(* ------------------------------------------------------------------ *)
(** ** The methods *)

Section Methods.

(** The network, as [requests.get] sees it. *)
Variable net : request -> reply.

(** The markup parser of [BeautifulSoup(text, 'html.parser')]: the
    top-level elements of the parsed page. *)
Variable html_parser : string -> list node.

(** [Image(BytesIO(data))] reads the image when it is built: it
    raises on bytes it cannot decode. *)
Variable image_setup : string -> result unit.

(** [Paragraph(text, style)] parses [text] when it is built: it raises
    on text that is not valid paragraph markup. *)
Variable Paragraph_init : string -> ParagraphStyle -> result unit.

(** [doc.build(elements)] lays the elements out and writes the file: it
    raises when it cannot. *)
Variable doc_build : document -> result unit.

Variable self : exporter.

(** [requests.get(u)] and [requests.get(u, headers=h)] *)
Definition requests_get (u : string) (h : option (list (string * string)))
  : M Response :=
  fun s =>
    let s' := {| movies := movies s; sent := sent s ++ [Get u h];
                 printed := printed s |} in
    match net (Get u h) with
    | Raises e => (Err e, s')
    | Responds r => (Ok r, s')
    end.

Definition _create_movie_poster_cell (movie : movie_data) : M (list flowable) :=
  if truthy (poster_url movie) then
    try_except
      (r <- requests_get (poster_url movie) (Some (headers self)) ;;
       let img_data := content r in
       _ <- lift (image_setup img_data) ;;
       ret [Image img_data ((8 # 10) * inch) ((12 # 10) * inch)])%M
      (fun e =>
         (print ("Error loading poster for " ++ title movie ++ ": " ++ exn_str e) ;;;
          ret [])%M)
  else ret [].

(** [Paragraph(markup, style)] *)
Definition new_Paragraph (markup : string) (style : ParagraphStyle)
  : result flowable :=
  (_ <- Paragraph_init markup style ;; Ok (Paragraph markup style))%py.

Definition _create_movie_title_table (movie : movie_data) (st : styles)
  : M flowable :=
  (title_par <- lift (new_Paragraph (title movie) (movie_title_style st)) ;;
   row <- (if truthy (flag_url movie) then
             try_except
               (r <- requests_get (flag_url movie) (Some (headers self)) ;;
                let flag_data := content r in
                _ <- lift (image_setup flag_data) ;;
                ret [CellFlowable title_par;
                     CellFlowable (Image flag_data 16 12)])
               (fun e =>
                  print ("Error loading flag for " ++ title movie ++ ": " ++ exn_str e) ;;;
                  ret [CellFlowable title_par])
           else ret [CellFlowable title_par; CellStr EmptyString]) ;;
   ret (title_table row))%M.

Definition _create_movie_info_cell (movie : movie_data) (st : styles)
    (title_table : flowable) : result (list flowable) :=
  (let info_cell := [title_table] in
   let rating_text :=
     ("<b>" ++ own_rating movie ++ "</b> (" ++ rating movie ++ ")")%string in
   ratings <- new_Paragraph rating_text (rating_style st) ;;
   let info_cell := info_cell ++ [ratings] in
   let info_cell := info_cell ++ [Spacer 1 4] in
   info_cell <-
     (if truthy (year movie) then
        (year_par <-
           new_Paragraph ("<b>Year:</b> " ++ year movie) (movie_info_style st) ;;
         Ok (info_cell ++ [year_par]))
      else Ok info_cell) ;;
   info_cell <-
     (if truthy (director movie) then
        (director_par <-
           new_Paragraph ("<b>Director:</b> " ++ director movie)
                         (movie_info_style st) ;;
         Ok (info_cell ++ [director_par]))
      else Ok info_cell) ;;
   info_cell <-
     (if truthy (cast movie) then
        (cast_par <-
           new_Paragraph ("<b>Cast:</b> " ++ cast movie) (movie_info_style st) ;;
         Ok (info_cell ++ [cast_par]))
      else Ok info_cell) ;;
   Ok info_cell)%py.

(** The body of the loop of [export_to_pdf]: the two elements it
    appends for [movie]. *)
Definition export_movie (st : styles) (movie : movie_data)
  : M (list flowable) :=
  (poster_cell <- _create_movie_poster_cell movie ;;
   title_table <- _create_movie_title_table movie st ;;
   info_cell <- lift (_create_movie_info_cell movie st title_table) ;;
   ret [movie_table poster_cell info_cell; _create_movie_separator])%M.

(** The loop of [export_to_pdf] over [ms], appending to [elements]. *)
Fixpoint export_loop (st : styles) (ms : list movie_data)
    (elements : list flowable) : M (list flowable) :=
  match ms with
  | [] => ret elements
  | movie :: ms' =>
      (new <- export_movie st movie ;;
       export_loop st ms' (elements ++ new))%M
  end.

Definition export_to_pdf (output_filename : string) : M document :=
  fun s =>
    (let st := _create_styles in
     elements <- export_loop st (movies s) [] ;;
     let doc := mkDocument output_filename "A4" 36 36 72 72 elements in
     _ <- lift (doc_build doc) ;;
     ret doc)%M s.

(** The body of the inner loop of [get_voted_movies]. *)
Definition collect (mp : node * node) : M unit :=
  (let movie := fst mp in
   let parent_element := snd mp in
   movie_data <- lift (_extract_movie_data movie parent_element) ;;
   movies_append movie_data)%M.

(** The [while True] loop of [get_voted_movies], from page [page];
    [None] when [fuel] iterations did not reach a [break]. *)
Fixpoint get_voted_movies_from (fuel page : nat) (s : state)
  : option (result unit * state) :=
  match fuel with
  | O => None
  | S fuel' =>
      let u := listing_url self page in
      match requests_get u None s with
      | (Err e, s1) => Some (Err e, s1)
      | (Ok response, s1) =>
          if negb (status_code response =? 200)%Z then Some (Ok tt, s1)
          else
            let soup := BeautifulSoup (html_parser (text_of response)) in
            let movies_elements :=
              find_all_with_parent "div" "user-ratings-movie-item" soup in
            match movies_elements with
            | [] => Some (Ok tt, s1)
            | _ =>
                match for_each movies_elements collect s1 with
                | (Err e, s2) => Some (Err e, s2)
                | (Ok _, s2) => get_voted_movies_from fuel' (S page) s2
                end
            end
      end
  end.

Definition get_voted_movies (fuel : nat)
  : state -> option (result unit * state) :=
  get_voted_movies_from fuel 1.

(** *** What the statements below talk about *)

(** The record nodes of a listing page, each with its parent. *)
Definition page_elements (response : Response) : list (node * node) :=
  find_all_with_parent "div" "user-ratings-movie-item"
    (BeautifulSoup (html_parser (text_of response))).

(** The records of a list of record nodes, or the first error. *)
Fixpoint extract_all (l : list (node * node)) : result (list movie_data) :=
  match l with
  | [] => Ok []
  | mp :: l' =>
      (d <- _extract_movie_data (fst mp) (snd mp) ;;
       ds <- extract_all l' ;;
       Ok (d :: ds))%py
  end.

(** The body of either [try] block on [u]: the bytes of the image, or
    the exception the block ends with. *)
Definition asset_fetch (u : string) : result string :=
  match net (Get u (Some (headers self))) with
  | Raises e => Err e
  | Responds r =>
      match image_setup (content r) with
      | Ok _ => Ok (content r)
      | Err e => Err e
      end
  end.

(** The requests one record asks for. *)
Definition asset_requests (movie : movie_data) : list request :=
  (if truthy (poster_url movie)
   then [Get (poster_url movie) (Some (headers self))] else [])
  ++ (if truthy (flag_url movie)
      then [Get (flag_url movie) (Some (headers self))] else []).


(** What [_create_movie_poster_cell] returns for [movie]. *)
Definition poster_cell_of (movie : movie_data) : list flowable :=
  if truthy (poster_url movie) then
    match asset_fetch (poster_url movie) with
    | Ok data => [Image data ((8 # 10) * inch) ((12 # 10) * inch)]
    | Err _ => []
    end
  else [].

(** The cells [_create_movie_title_table] puts after the title. *)
Definition flag_cells_of (movie : movie_data) : list (cell flowable) :=
  if truthy (flag_url movie) then
    match asset_fetch (flag_url movie) with
    | Ok data => [CellFlowable (Image data 16 12)]
    | Err _ => []
    end
  else [CellStr EmptyString].

(** The line printed when the poster of [movie] cannot be loaded. *)
Definition poster_lines_of (movie : movie_data) : list string :=
  if truthy (poster_url movie) then
    match asset_fetch (poster_url movie) with
    | Ok _ => []
    | Err e => ["Error loading poster for " ++ title movie ++ ": " ++ exn_str e]%string
    end
  else [].

(** The line printed when the flag of [movie] cannot be loaded. *)
Definition flag_lines_of (movie : movie_data) : list string :=
  if truthy (flag_url movie) then
    match asset_fetch (flag_url movie) with
    | Ok _ => []
    | Err e => ["Error loading flag for " ++ title movie ++ ": " ++ exn_str e]%string
    end
  else [].

(** The lines printed while the block of [movie] is built. *)
Definition diagnostics_of (movie : movie_data) : list string :=
  poster_lines_of movie ++ flag_lines_of movie.

(** How many times the records [ms] refer to the URL [u], as a poster
    or as a flag. *)
Definition references (u : string) (ms : list movie_data) : nat :=
  count_occ string_dec
    (flat_map (fun movie => filter truthy [poster_url movie; flag_url movie]) ms)
    u.

(** The texts [_create_movie_info_cell] makes paragraphs of, each with
    its style, in the order of the calls. *)
Definition info_paragraphs (st : styles) (movie : movie_data)
  : list (string * ParagraphStyle) :=
  [(("<b>" ++ own_rating movie ++ "</b> (" ++ rating movie ++ ")")%string,
    rating_style st)]
  ++ (if truthy (year movie)
      then [(("<b>Year:</b> " ++ year movie)%string, movie_info_style st)]
      else [])
  ++ (if truthy (director movie)
      then [(("<b>Director:</b> " ++ director movie)%string, movie_info_style st)]
      else [])
  ++ (if truthy (cast movie)
      then [(("<b>Cast:</b> " ++ cast movie)%string, movie_info_style st)]
      else []).

(** Every text the block of [movie] makes a paragraph of is valid
    markup. *)
Definition markup_accepted (st : styles) (movie : movie_data) : Prop :=
  Forall (fun p => Paragraph_init (fst p) (snd p) = Ok tt)
         ((title movie, movie_title_style st) :: info_paragraphs st movie).

(** The block of [movie], when its paragraphs are built. *)
Definition block_of (st : styles) (movie : movie_data) : flowable :=
  movie_table (poster_cell_of movie)
    ([title_table
        (CellFlowable (Paragraph (title movie) (movie_title_style st))
         :: flag_cells_of movie);
      Paragraph ("<b>" ++ own_rating movie ++ "</b> (" ++ rating movie ++ ")")
                (rating_style st);
      Spacer 1 4]
     ++ info_line "<b>Year:</b> " (year movie) (movie_info_style st)
     ++ info_line "<b>Director:</b> " (director movie) (movie_info_style st)
     ++ info_line "<b>Cast:</b> " (cast movie) (movie_info_style st)).

(** What the body of the loop returns for [movie]. *)
Definition movie_block (st : styles) (movie : movie_data)
  : result (list flowable) :=
  (title_par <- new_Paragraph (title movie) (movie_title_style st) ;;
   info_cell <-
     _create_movie_info_cell movie st
       (title_table (CellFlowable title_par :: flag_cells_of movie)) ;;
   Ok [movie_table (poster_cell_of movie) info_cell;
       _create_movie_separator])%py.

(** The requests the body of the loop sends for [movie]: the flag is
    asked for only once the title paragraph is built. *)
Definition movie_requests (st : styles) (movie : movie_data) : list request :=
  (if truthy (poster_url movie)
   then [Get (poster_url movie) (Some (headers self))] else [])
  ++ match Paragraph_init (title movie) (movie_title_style st) with
     | Ok _ => if truthy (flag_url movie)
               then [Get (flag_url movie) (Some (headers self))] else []
     | Err _ => []
     end.

(** The lines the body of the loop prints for [movie]. *)
Definition movie_lines (st : styles) (movie : movie_data) : list string :=
  poster_lines_of movie
  ++ match Paragraph_init (title movie) (movie_title_style st) with
     | Ok _ => flag_lines_of movie
     | Err _ => []
     end.

(** What the loop returns, sends and prints over [ms]: it stops at the
    first record whose block raises. *)
Fixpoint loop_block (st : styles) (ms : list movie_data)
    (elements : list flowable) : result (list flowable) :=
  match ms with
  | [] => Ok elements
  | movie :: ms' =>
      (new <- movie_block st movie ;; loop_block st ms' (elements ++ new))%py
  end.

Fixpoint loop_requests (st : styles) (ms : list movie_data) : list request :=
  match ms with
  | [] => []
  | movie :: ms' =>
      movie_requests st movie
      ++ match movie_block st movie with
         | Ok _ => loop_requests st ms'
         | Err _ => []
         end
  end.

Fixpoint loop_lines (st : styles) (ms : list movie_data) : list string :=
  match ms with
  | [] => []
  | movie :: ms' =>
      movie_lines st movie
      ++ match movie_block st movie with
         | Ok _ => loop_lines st ms'
         | Err _ => []
         end
  end.

(** Page [q] answers 200, holds record nodes, and [recs q] are the
    records of its nodes. *)
Definition full_page (recs : nat -> list movie_data) (q : nat) : Prop :=
  exists r,
    net (Get (listing_url self q) None) = Responds r
    /\ status_code r = 200%Z
    /\ page_elements r <> []
    /\ extract_all (page_elements r) = Ok (recs q).

(** Page [q] answers with a status other than 200, or holds no record
    node. *)
Definition last_page (q : nat) : Prop :=
  exists r,
    net (Get (listing_url self q) None) = Responds r
    /\ (status_code r <> 200%Z \/ page_elements r = []).

(** [input(prompt)]: the prompt is written out and the line typed is
    returned. *)
Definition input (prompt typed : string) : M string :=
  fun s => (Ok typed, {| movies := movies s; sent := sent s;
                         printed := printed s ++ [prompt] |}).

(** [main()], in a fresh process where the user types [typed]; [self]
    stands for the object [FilmaffinityExporter(user_id)] builds, which
    the statements about [main] assume.  The document returned is the
    one written to [output_filename]. *)
Definition main (fuel : nat) (typed : string)
  : option (result document * state) :=
  let s0 := snd (__init__ typed) in
  match (user_id <- input "Please enter your FilmAffinity user ID: " typed ;;
         print "Getting rated movies..." ;;;
         ret user_id)%M s0 with
  | (Err e, s1) => Some (Err e, s1)
  | (Ok user_id, s1) =>
      match get_voted_movies fuel s1 with
      | None => None
      | Some (Err e, s2) => Some (Err e, s2)
      | Some (Ok _, s2) =>
          Some ((let output_filename :=
                   ("fa_ratings_" ++ user_id ++ ".pdf")%string in
                 print ("Exporting to PDF: " ++ output_filename) ;;;
                 doc <- export_to_pdf output_filename ;;
                 n <- (fun s => (Ok (List.length (movies s)), s)) ;;
                 print ("Export completed! " ++ str_of_nat n
                        ++ " movies have been exported.") ;;;
                 ret doc)%M s2)
      end
  end.

(* ------------------------------------------------------------------ *)
(** ** Properties of field extraction *)

Local Open Scope nat_scope.

Lemma split_not_nil (sep : ascii) (s : string) : split sep s <> [].
Proof.
  induction s as [|c s IH]; simpl; [discriminate|].
  destruct (Ascii.eqb c sep); [discriminate|].
  destruct (split sep s); discriminate.
Qed.

Lemma item0_split (sep : ascii) (s : string) :
  exists w, item0 (split sep s) = Ok w.
Proof.
  destruct (split sep s) as [|w ws] eqn:E.
  - now apply split_not_nil in E.
  - now exists w.
Qed.

(** The two chained look-ups are the only places where extraction can
    raise. *)
Lemma extract_ok (movie parent_element tb rb : node) :
  find "div" "mc-title" movie = Some tb ->
  find "div" "fa-avg-rat-box" movie = Some rb ->
  exists poster,
    _extract_movie_data movie parent_element =
    Ok {| title := text_or (find "a" "d-md-inline-block" tb) "Unknown";
          year := text_or (find "span" "mc-year" movie) EmptyString;
          rating := text_or (find "div" "avg" rb) EmptyString;
          own_rating := text_or (find "div" "fa-user-rat-box" parent_element) EmptyString;
          director := text_or (find "div" "mc-director" movie) EmptyString;
          cast := text_or (find "div" "mc-cast" movie) EmptyString;
          poster_url := poster;
          flag_url := match find "img" "nflag" movie with
                      | Some img => "https://www.filmaffinity.com/" ++ get img "src" EmptyString
                      | None => EmptyString
                      end |}
    /\ match find "img" "lazyload" movie with
       | Some img => item0 (split " " (get img "data-srcset" EmptyString)) = Ok poster
       | None => poster = EmptyString
       end.
Proof.
  intros Ht Hr. unfold _extract_movie_data. rewrite Ht, Hr. simpl.
  destruct (find "img" "lazyload" movie) as [img|].
  - destruct (item0_split " " (get img "data-srcset" EmptyString)) as [w Hw].
    exists w. rewrite Hw. simpl. auto.
  - exists EmptyString. simpl. auto.
Qed.

Lemma extract_err (movie parent_element : node) :
  find "div" "mc-title" movie = None
  \/ find "div" "fa-avg-rat-box" movie = None ->
  _extract_movie_data movie parent_element = Err AttributeError.
Proof.
  intros [H|H]; unfold _extract_movie_data.
  - now rewrite H.
  - destruct (find "div" "mc-title" movie); rewrite H; reflexivity.
Qed.

Lemma extract_ok_inv (movie parent_element : node) (d : movie_data) :
  _extract_movie_data movie parent_element = Ok d ->
  (exists tb, find "div" "mc-title" movie = Some tb)
  /\ (exists rb, find "div" "fa-avg-rat-box" movie = Some rb).
Proof.
  intros H.
  destruct (find "div" "mc-title" movie) as [tb|] eqn:Ht;
    [|rewrite extract_err in H by auto; discriminate].
  destruct (find "div" "fa-avg-rat-box" movie) as [rb|] eqn:Hr;
    [|rewrite extract_err in H by auto; discriminate].
  eauto.
Qed.

(** [find] on a tag looks through its children and what lies below
    them. *)
Lemma find_first_match (name cls nm : string) (cl : list string)
    (at_ : list (string * string)) (cs : list node) :
  find name cls (Tag nm cl at_ cs) = first_match name cls cs.
Proof. reflexivity. Qed.

Lemma first_match_app_none (name cls : string) (l1 l2 : list node) :
  first_match name cls l1 = None ->
  first_match name cls (l1 ++ l2) = first_match name cls l2.
Proof.
  unfold first_match. intros H.
  rewrite flat_map_app, filter_app.
  destruct (filter (matches name cls) (flat_map (fun c => c :: descendants c) l1));
    [reflexivity|discriminate].
Qed.

Lemma first_match_app_some (name cls : string) (l1 l2 : list node) (x : node) :
  first_match name cls l1 = Some x ->
  first_match name cls (l1 ++ l2) = Some x.
Proof.
  unfold first_match. intros H.
  rewrite flat_map_app, filter_app.
  destruct (filter (matches name cls) (flat_map (fun c => c :: descendants c) l1));
    [discriminate|exact H].
Qed.

(** A record node without a match of its own does not hide the matches
    of its siblings. *)
Lemma first_match_skip (name cls : string) (pre post : list node) (x : node) :
  first_match name cls [x] = None ->
  first_match name cls (pre ++ x :: post) = first_match name cls (pre ++ post).
Proof.
  intros H.
  destruct (first_match name cls pre) as [y|] eqn:E.
  - now rewrite !(first_match_app_some _ _ _ _ _ E).
  - rewrite !(first_match_app_none _ _ _ _ E).
    change (x :: post) with ([x] ++ post).
    now apply first_match_app_none.
Qed.

(** C1. Field extraction raises exactly on the record nodes that lack
    the title container or the average-rating container: the look-up
    of the container yields [None] and the chained [find] on it is an
    AttributeError, whatever the context node; the default ["Unknown"]
    is not reached there. *)
Theorem extract_raises_iff_container_missing (movie parent_element : node) :
  (exists e, _extract_movie_data movie parent_element = Err e)
  <-> (find "div" "mc-title" movie = None
       \/ find "div" "fa-avg-rat-box" movie = None).
Proof.
  split.
  - intros [e He].
    destruct (find "div" "mc-title" movie) as [tb|] eqn:Ht; [|now left].
    destruct (find "div" "fa-avg-rat-box" movie) as [rb|] eqn:Hr; [|now right].
    destruct (extract_ok movie parent_element _ _ Ht Hr) as [poster [E _]].
    rewrite E in He. discriminate.
  - intros H. eexists. now apply extract_err.
Qed.

(** With both containers present, every field whose sub-node is missing
    takes its default: ["Unknown"] for the title, the empty string for
    the others. *)
Lemma extract_defaults (movie parent_element tb rb : node) :
  find "div" "mc-title" movie = Some tb ->
  find "div" "fa-avg-rat-box" movie = Some rb ->
  find "a" "d-md-inline-block" tb = None ->
  find "span" "mc-year" movie = None ->
  find "div" "avg" rb = None ->
  find "div" "fa-user-rat-box" parent_element = None ->
  find "div" "mc-director" movie = None ->
  find "div" "mc-cast" movie = None ->
  find "img" "lazyload" movie = None ->
  find "img" "nflag" movie = None ->
  _extract_movie_data movie parent_element =
  Ok (MovieData "Unknown" EmptyString EmptyString EmptyString EmptyString
                EmptyString EmptyString EmptyString).
Proof.
  intros Ht Hr H1 H2 H3 H4 H5 H6 H7 H8.
  destruct (extract_ok movie parent_element _ _ Ht Hr) as [poster [E P]].
  rewrite E. rewrite H7 in P. subst poster.
  now rewrite H1, H2, H3, H4, H5, H6, H8.
Qed.

(** C6 (amended). The personal rating is the text of the first
    personal-rating div below the context node, the record node and
    what it holds included.  When the record node holds none and has
    both containers, and the first such div among its siblings reads
    ["8"], extraction returns a record whose personal rating is ["8"]. *)
Theorem own_rating_from_context
    (nm : string) (cl : list string) (at_ : list (string * string))
    (pre post : list node) (movie box tb rb : node) :
  first_match "div" "fa-user-rat-box" [movie] = None ->
  first_match "div" "fa-user-rat-box" (pre ++ post) = Some box ->
  strip (text box) = "8" ->
  find "div" "mc-title" movie = Some tb ->
  find "div" "fa-avg-rat-box" movie = Some rb ->
  exists d,
    _extract_movie_data movie (Tag nm cl at_ (pre ++ movie :: post)) = Ok d
    /\ own_rating d = "8".
Proof.
  intros Hown Hctx Hv Ht Hr.
  destruct (extract_ok movie (Tag nm cl at_ (pre ++ movie :: post)) _ _ Ht Hr)
    as [poster [E _]].
  eexists. split; [exact E|]. simpl.
  rewrite find_first_match, (first_match_skip _ _ pre post _ Hown), Hctx.
  exact Hv.
Qed.


(* ------------------------------------------------------------------ *)
(** ** Properties of retrieval *)

Lemma state_app_empty_r (s : state) : state_app s empty_state = s.
Proof.
  destruct s as [m q p]. unfold state_app. simpl. now rewrite !app_nil_r.
Qed.

Lemma state_app_empty_l (s : state) : state_app empty_state s = s.
Proof. now destruct s. Qed.

Lemma framed_ret {A} (a : A) : framed (ret a).
Proof. intros s t. reflexivity. Qed.

Lemma framed_lift {A} (r : result A) : framed (lift r).
Proof. intros s t. reflexivity. Qed.

Lemma framed_bindM {A B} (m : M A) (k : A -> M B) :
  framed m -> (forall a, framed (k a)) -> framed (bindM m k).
Proof.
  intros Hm Hk s t. unfold bindM. rewrite Hm.
  destruct (m t) as [[a|e] t']; simpl; [apply Hk|reflexivity].
Qed.

Lemma framed_try_except {A} (body : M A) (handler : exn -> M A) :
  framed body -> (forall e, framed (handler e)) ->
  framed (try_except body handler).
Proof.
  intros Hb Hh s t. unfold try_except. rewrite Hb.
  destruct (body t) as [[a|e] t']; simpl; [reflexivity|apply Hh].
Qed.

Lemma framed_print (line : string) : framed (print line).
Proof.
  intros s t. unfold print, state_app. simpl. now rewrite app_assoc.
Qed.

Lemma framed_movies_append (d : movie_data) : framed (movies_append d).
Proof.
  intros s t. unfold movies_append, state_app. simpl. now rewrite app_assoc.
Qed.

Lemma framed_requests_get (u : string) (h : option (list (string * string))) :
  framed (requests_get u h).
Proof.
  intros s t. unfold requests_get, state_app. simpl.
  destruct (net (Get u h)); simpl; now rewrite app_assoc.
Qed.

Lemma framed_for_each {A} (l : list A) (body : A -> M unit) :
  (forall x, framed (body x)) -> framed (for_each l body).
Proof.
  intros Hb. induction l as [|x l IH]; simpl.
  - apply framed_ret.
  - apply framed_bindM; [apply Hb|intros _; exact IH].
Qed.

Lemma framed_collect (mp : node * node) : framed (collect mp).
Proof.
  unfold collect. apply framed_bindM; [apply framed_lift|].
  intros d. apply framed_movies_append.
Qed.

(** The whole loop only appends. *)
Lemma get_voted_movies_from_frame (fuel page : nat) (s t : state) :
  get_voted_movies_from fuel page (state_app s t) =
  option_map (fun rt => (fst rt, state_app s (snd rt)))
             (get_voted_movies_from fuel page t).
Proof.
  revert page s t. induction fuel as [|fuel IH]; intros page s t; simpl.
  - reflexivity.
  - rewrite framed_requests_get.
    destruct (requests_get (listing_url self page) None t) as [[resp|e] t1]; simpl;
      [|reflexivity].
    destruct (negb (status_code resp =? 200)%Z); [reflexivity|].
    destruct (find_all_with_parent "div" "user-ratings-movie-item"
                (BeautifulSoup (html_parser (text_of resp)))) as [|mp l];
      [reflexivity|].
    rewrite (framed_for_each (mp :: l) collect framed_collect).
    destruct (for_each (mp :: l) collect t1) as [[[]|e] t2]; simpl;
      [apply IH|reflexivity].
Qed.

(** The inner loop appends the records of the page, in order. *)
Lemma for_each_collect
    (l : list (node * node)) (ds : list movie_data) (s : state) :
  extract_all l = Ok ds ->
  for_each l collect s =
  (Ok tt, {| movies := movies s ++ ds; sent := sent s; printed := printed s |}).
Proof.
  revert ds s. induction l as [|mp l IH]; intros ds s H; simpl in *.
  - injection H as <-. rewrite app_nil_r. now destruct s.
  - unfold bindM, collect, lift, movies_append, Py.bind in *.
    destruct (_extract_movie_data (fst mp) (snd mp)) as [d|e]; [|discriminate].
    destruct (extract_all l) as [ds'|e]; [|discriminate].
    injection H as <-. simpl.
    rewrite (IH ds' _ eq_refl). simpl. now rewrite <- app_assoc.
Qed.

Lemma get_voted_movies_from_pages (recs : nat -> list movie_data) (k : nat) :
  forall (page fuel : nat) (s : state),
    (forall q, page <= q < page + k -> full_page recs q) ->
    last_page (page + k) ->
    k < fuel ->
    get_voted_movies_from fuel page s =
    Some (Ok tt,
          {| movies := movies s ++ flat_map recs (seq page k);
             sent := sent s
                     ++ map (fun q => Get (listing_url self q) None) (seq page (S k));
             printed := printed s |}).
Proof.
  induction k as [|k IH]; intros page fuel s Hfull Hlast Hfuel;
    (destruct fuel as [|fuel]; [lia|]).
  - rewrite Nat.add_0_r in Hlast. destruct Hlast as [r [Hnet Hstop]].
    simpl. unfold requests_get. rewrite Hnet. rewrite app_nil_r.
    destruct (status_code r =? 200)%Z eqn:E; simpl; [|reflexivity].
    destruct Hstop as [Hs|Hs]; [apply Z.eqb_eq in E; contradiction|].
    unfold page_elements in Hs. now rewrite Hs.
  - destruct (Hfull page ltac:(lia)) as [r [Hnet [H200 [Hne Hex]]]].
    cbn [get_voted_movies_from]. unfold requests_get. rewrite Hnet.
    rewrite H200. cbn [Z.eqb Pos.eqb negb].
    unfold page_elements in Hne, Hex.
    destruct (find_all_with_parent "div" "user-ratings-movie-item"
                (BeautifulSoup (html_parser (text_of r)))) as [|mp l] eqn:El;
      [contradiction|].
    rewrite (for_each_collect _ _ _ Hex).
    rewrite (IH (S page) fuel); [| | |lia].
    + cbn [movies sent printed]. cbn [seq flat_map map].
      now rewrite <- !app_assoc.
    + intros q Hq. apply Hfull. lia.
    + now replace (S page + k) with (page + S k) by lia.
Qed.

(** C2 (amended). Retrieval asks for page 1 first.  When pages 1 to [k]
    answer 200 with record nodes and page [k + 1] answers with a status
    other than 200 or holds no record node, it returns after [k + 1]
    requests, having appended the records of pages 1 to [k] in order
    and nothing from page [k + 1]. *)
Theorem pagination_until_first_break
    (recs : nat -> list movie_data) (k fuel : nat) (s : state) :
  (forall q, 1 <= q < 1 + k -> full_page recs q) ->
  last_page (1 + k) ->
  k < fuel ->
  get_voted_movies fuel s =
  Some (Ok tt,
        {| movies := movies s ++ flat_map recs (seq 1 k);
           sent := sent s
                   ++ map (fun q => Get (listing_url self q) None) (seq 1 (S k));
           printed := printed s |}).
Proof.
  intros Hfull Hlast Hfuel. unfold get_voted_movies.
  now apply get_voted_movies_from_pages.
Qed.

(** C9. Retrieval appends to [self.movies] and never clears it: the
    records [new] a run extracts come after the records the list held,
    whatever they were, and a second run on the same exporter leaves
    every new record twice. *)
Theorem retrieval_appends
    (fuel : nat) (s0 s1 : state) (r : result unit) :
  get_voted_movies fuel s0 = Some (r, s1) ->
  exists new,
    movies s1 = movies s0 ++ new
    /\ (forall s, exists s',
          get_voted_movies fuel s = Some (r, s')
          /\ movies s' = movies s ++ new
          /\ List.length (movies s') = List.length (movies s) + List.length new)
    /\ (exists s2,
          get_voted_movies fuel s1 = Some (r, s2)
          /\ movies s2 = movies s0 ++ new ++ new).
Proof.
  unfold get_voted_movies. intros H.
  assert (F : forall s, get_voted_movies_from fuel 1 s =
              option_map (fun rt => (fst rt, state_app s (snd rt)))
                         (get_voted_movies_from fuel 1 empty_state)).
  { intros s. rewrite <- (state_app_empty_r s) at 1.
    apply get_voted_movies_from_frame. }
  rewrite F in H.
  destruct (get_voted_movies_from fuel 1 empty_state) as [[r' t]|] eqn:E;
    [|discriminate].
  simpl in H. injection H as -> <-.
  exists (movies t). split; [reflexivity|]. split.
  - intros s. rewrite F. simpl. eexists. split; [reflexivity|].
    simpl. split; [reflexivity|apply List.length_app].
  - rewrite F. simpl. eexists. split; [reflexivity|].
    simpl. now rewrite <- app_assoc.
Qed.

(** The inner loop sends nothing. *)
Lemma for_each_collect_sent (l : list (node * node)) (s : state) :
  sent (snd (for_each l collect s)) = sent s.
Proof.
  revert s. induction l as [|mp l IH]; intros s; simpl; [reflexivity|].
  unfold bindM, collect, lift, movies_append.
  destruct (_extract_movie_data (fst mp) (snd mp)) as [d|e]; simpl;
    [|reflexivity].
  now rewrite IH.
Qed.

(** C5. The requests retrieval sends for the listing pages pass no
    [headers] argument: at least one request goes out, and none of them
    carries the header set of [__init__]. *)
Theorem listing_requests_carry_no_headers
    (fuel : nat) (s s' : state) (r : result unit) :
  get_voted_movies fuel s = Some (r, s') ->
  exists new,
    sent s' = sent s ++ new
    /\ new <> []
    /\ Forall (fun q => sent_headers q = None) new.
Proof.
  unfold get_voted_movies. generalize 1 as page. revert s s' r.
  induction fuel as [|fuel IH]; intros s s' r page H; [discriminate|].
  cbn [get_voted_movies_from] in H. unfold requests_get in H.
  set (q := Get (listing_url self page) None) in *.
  assert (Hq : forall st : state,
             sent st = sent s ++ [q] ->
             exists new, sent st = sent s ++ new /\ new <> []
                         /\ Forall (fun q => sent_headers q = None) new).
  { intros st Hst. exists [q]. repeat split; [exact Hst|discriminate|].
    now constructor. }
  destruct (net q) as [e|resp].
  - injection H as <- <-. now apply Hq.
  - destruct (negb (status_code resp =? 200)%Z).
    { injection H as <- <-. now apply Hq. }
    destruct (find_all_with_parent "div" "user-ratings-movie-item"
                (BeautifulSoup (html_parser (text_of resp)))) as [|mp l].
    { injection H as <- <-. now apply Hq. }
    match type of H with
    | context [for_each ?l ?b ?st] =>
        pose proof (for_each_collect_sent l st) as Hsent;
        destruct (for_each l b st) as [[[]|e] s2]
    end; simpl in Hsent.
    + apply IH in H. destruct H as [new [Hs [_ Hall]]].
      exists (q :: new). repeat split; [|discriminate|now constructor].
      rewrite Hs, Hsent. now rewrite <- app_assoc.
    + injection H as <- <-. now apply Hq.
Qed.

(* ------------------------------------------------------------------ *)
(** ** Properties of the layout *)

Ltac run_asset :=
  unfold try_except, bindM, requests_get, lift, print, ret, asset_fetch;
  repeat match goal with
         | |- context [net ?q] => destruct (net q); simpl
         | |- context [image_setup ?d] => destruct (image_setup d); simpl
         end;
  rewrite ?app_nil_r, <- ?app_assoc; try reflexivity.

Lemma poster_cell_run (movie : movie_data) (s : state) :
  _create_movie_poster_cell movie s =
  (Ok (poster_cell_of movie),
   {| movies := movies s;
      sent := sent s ++ (if truthy (poster_url movie)
                         then [Get (poster_url movie) (Some (headers self))]
                         else []);
      printed := printed s ++ poster_lines_of movie |}).
Proof.
  unfold _create_movie_poster_cell, poster_cell_of, poster_lines_of.
  destruct (truthy (poster_url movie)).
  - run_asset.
  - unfold ret. rewrite !app_nil_r. now destruct s.
Qed.

(** The title paragraph is built first, outside the [try]: when it
    raises, no request for the flag is sent. *)
Lemma title_table_run (movie : movie_data) (st : styles) (s : state) :
  _create_movie_title_table movie st s =
  match Paragraph_init (title movie) (movie_title_style st) with
  | Err e => (Err e, s)
  | Ok _ =>
      (Ok (title_table
             (CellFlowable (Paragraph (title movie) (movie_title_style st))
              :: flag_cells_of movie)),
       {| movies := movies s;
          sent := sent s ++ (if truthy (flag_url movie)
                             then [Get (flag_url movie) (Some (headers self))]
                             else []);
          printed := printed s ++ flag_lines_of movie |})
  end.
Proof.
  unfold _create_movie_title_table, flag_cells_of, flag_lines_of, new_Paragraph.
  unfold bindM at 1. unfold lift at 1. unfold Py.bind.
  destruct (Paragraph_init (title movie) (movie_title_style st)) as [u|e];
    [|reflexivity].
  destruct (truthy (flag_url movie)).
  - unfold bindM at 1. run_asset.
  - unfold bindM, ret. rewrite !app_nil_r. now destruct s.
Qed.

Ltac run_paragraphs :=
  unfold _create_movie_info_cell, info_paragraphs, info_line, new_Paragraph,
    Py.bind;
  repeat match goal with
         | |- context [truthy ?v] => destruct (truthy v)
         end;
  repeat match goal with
         | |- context [match Paragraph_init ?t ?y with _ => _ end] =>
             let E := fresh "E" in
             destruct (Paragraph_init t y) as [[]|?] eqn:E
         end.

(** The info cell, when every paragraph is built. *)
Lemma info_cell_accepted (movie : movie_data) (st : styles) (tab : flowable) :
  Forall (fun p => Paragraph_init (fst p) (snd p) = Ok tt)
         (info_paragraphs st movie) ->
  _create_movie_info_cell movie st tab =
  Ok ([tab;
       Paragraph ("<b>" ++ own_rating movie ++ "</b> (" ++ rating movie ++ ")")
                 (rating_style st);
       Spacer 1 4]
      ++ info_line "<b>Year:</b> " (year movie) (movie_info_style st)
      ++ info_line "<b>Director:</b> " (director movie) (movie_info_style st)
      ++ info_line "<b>Cast:</b> " (cast movie) (movie_info_style st)).
Proof.
  intros H.
  unfold _create_movie_info_cell, info_paragraphs, info_line, new_Paragraph,
    Py.bind in *.
  destruct (truthy (year movie)), (truthy (director movie)),
    (truthy (cast movie));
    repeat match goal with
           | H : Forall _ (_ ++ _) |- _ =>
               apply Forall_app in H; destruct H
           | H : Forall _ (_ :: _) |- _ =>
               apply Forall_cons_iff in H; destruct H
           | H : Forall _ [] |- _ => clear H
           end; cbn [fst snd] in *;
    repeat match goal with
           | H : Paragraph_init _ _ = Ok tt |- _ => rewrite H; clear H
           end; reflexivity.
Qed.

(** The info cell returned is that list, and its paragraphs were all
    built. *)
Lemma info_cell_returned (movie : movie_data) (st : styles) (tab : flowable)
    (cell : list flowable) :
  _create_movie_info_cell movie st tab = Ok cell ->
  Forall (fun p => Paragraph_init (fst p) (snd p) = Ok tt)
         (info_paragraphs st movie)
  /\ cell =
     [tab;
      Paragraph ("<b>" ++ own_rating movie ++ "</b> (" ++ rating movie ++ ")")
                (rating_style st);
      Spacer 1 4]
     ++ info_line "<b>Year:</b> " (year movie) (movie_info_style st)
     ++ info_line "<b>Director:</b> " (director movie) (movie_info_style st)
     ++ info_line "<b>Cast:</b> " (cast movie) (movie_info_style st).
Proof.
  intros H.
  assert (A : Forall (fun p => Paragraph_init (fst p) (snd p) = Ok tt)
                     (info_paragraphs st movie)).
  { revert H. run_paragraphs; intros H; try discriminate;
      repeat (apply Forall_app; split);
      repeat (constructor; cbn [fst snd]; try assumption). }
  split; [exact A|].
  rewrite (info_cell_accepted movie st tab A) in H. now injection H.
Qed.

Lemma export_movie_run (st : styles) (movie : movie_data) (s : state) :
  export_movie st movie s =
  (movie_block st movie,
   {| movies := movies s;
      sent := sent s ++ movie_requests st movie;
      printed := printed s ++ movie_lines st movie |}).
Proof.
  unfold export_movie. unfold bindM at 1. rewrite poster_cell_run.
  unfold bindM at 1. rewrite title_table_run.
  unfold movie_block, movie_requests, movie_lines, new_Paragraph, Py.bind.
  destruct (Paragraph_init (title movie) (movie_title_style st)) as [u|e].
  - unfold bindM, lift, ret. cbn [movies sent printed].
    rewrite <- !app_assoc.
    now destruct (_create_movie_info_cell movie st _).
  - cbn [movies sent printed]. now rewrite !app_nil_r.
Qed.

Lemma export_loop_run (st : styles) (ms : list movie_data) :
  forall (elements : list flowable) (s : state),
    export_loop st ms elements s =
    (loop_block st ms elements,
     {| movies := movies s;
        sent := sent s ++ loop_requests st ms;
        printed := printed s ++ loop_lines st ms |}).
Proof.
  induction ms as [|movie ms IH]; intros elements s.
  - simpl. unfold ret. rewrite !app_nil_r. now destruct s.
  - cbn [export_loop loop_block loop_requests loop_lines].
    unfold bindM. rewrite export_movie_run. unfold Py.bind.
    destruct (movie_block st movie) as [new|e].
    + rewrite IH. cbn [movies sent printed]. now rewrite <- !app_assoc.
    + now rewrite !app_nil_r.
Qed.

Lemma export_to_pdf_run (output_filename : string) (s : state) :
  export_to_pdf output_filename s =
  (match loop_block _create_styles (movies s) [] with
   | Ok elements =>
       match doc_build (mkDocument output_filename "A4" 36 36 72 72 elements) with
       | Ok _ => Ok (mkDocument output_filename "A4" 36 36 72 72 elements)
       | Err e => Err e
       end
   | Err e => Err e
   end,
   {| movies := movies s;
      sent := sent s ++ loop_requests _create_styles (movies s);
      printed := printed s ++ loop_lines _create_styles (movies s) |}).
Proof.
  unfold export_to_pdf. cbv zeta. unfold bindM at 1. rewrite export_loop_run.
  destruct (loop_block _create_styles (movies s) []) as [elements|e];
    [|reflexivity].
  unfold bindM, lift, ret.
  now destruct (doc_build _).
Qed.

(** The block of a record whose paragraphs are all built. *)
Lemma movie_block_accepted (st : styles) (movie : movie_data) :
  markup_accepted st movie ->
  movie_block st movie =
  Ok [movie_table (poster_cell_of movie)
        ([title_table
            (CellFlowable (Paragraph (title movie) (movie_title_style st))
             :: flag_cells_of movie);
          Paragraph ("<b>" ++ own_rating movie ++ "</b> (" ++ rating movie ++ ")")
                    (rating_style st);
          Spacer 1 4]
         ++ info_line "<b>Year:</b> " (year movie) (movie_info_style st)
         ++ info_line "<b>Director:</b> " (director movie) (movie_info_style st)
         ++ info_line "<b>Cast:</b> " (cast movie) (movie_info_style st));
      _create_movie_separator].
Proof.
  unfold markup_accepted. intros H.
  apply Forall_cons_iff in H. destruct H as [Ht Hi]. cbn [fst snd] in Ht.
  unfold movie_block, new_Paragraph, Py.bind. rewrite Ht.
  now rewrite (info_cell_accepted movie st _ Hi).
Qed.

(** A block that is returned is that block, and its paragraphs were all
    built. *)
Lemma movie_block_returned (st : styles) (movie : movie_data)
    (new : list flowable) :
  movie_block st movie = Ok new -> markup_accepted st movie.
Proof.
  unfold movie_block, new_Paragraph, Py.bind, markup_accepted. intros H.
  destruct (Paragraph_init (title movie) (movie_title_style st)) as [[]|e] eqn:Et;
    [|discriminate].
  destruct (_create_movie_info_cell movie st _) as [cell|e] eqn:Ec;
    [|discriminate].
  apply info_cell_returned in Ec. destruct Ec as [A _].
  constructor; [exact Et|exact A].
Qed.

(** When the title paragraph is built, both assets are asked for. *)
Lemma movie_requests_accepted (st : styles) (movie : movie_data) :
  markup_accepted st movie ->
  movie_requests st movie = asset_requests movie
  /\ movie_lines st movie = diagnostics_of movie.
Proof.
  unfold markup_accepted. intros H.
  apply Forall_cons_iff in H. destruct H as [Ht _]. cbn [fst snd] in Ht.
  unfold movie_requests, movie_lines, asset_requests, diagnostics_of.
  now rewrite Ht.
Qed.

(** The requests of a record are the first of those it asks for when
    nothing raises. *)
Lemma movie_requests_prefix (st : styles) (movie : movie_data) :
  exists rest, movie_requests st movie ++ rest = asset_requests movie.
Proof.
  unfold movie_requests, asset_requests.
  destruct (Paragraph_init (title movie) (movie_title_style st)).
  - exists []. now rewrite app_nil_r.
  - eexists. rewrite <- app_assoc. reflexivity.
Qed.

(** The loop, when the paragraphs of every record are built. *)
Lemma loop_accepted (st : styles) (ms : list movie_data) :
  (forall movie, In movie ms -> markup_accepted st movie) ->
  forall elements,
    exists news,
      loop_block st ms elements = Ok (elements ++ List.concat news)
      /\ Forall2 (fun movie new => movie_block st movie = Ok new) ms news
      /\ loop_requests st ms = flat_map asset_requests ms
      /\ loop_lines st ms = flat_map diagnostics_of ms.
Proof.
  induction ms as [|movie ms IH]; intros H elements.
  - exists []. cbn. rewrite app_nil_r. repeat split. constructor.
  - pose proof (H movie (or_introl eq_refl)) as Hm.
    destruct (movie_requests_accepted st movie Hm) as [Hr Hl].
    pose proof (movie_block_accepted st movie Hm) as Hb.
    cbn [loop_block loop_requests loop_lines]. unfold Py.bind.
    rewrite Hr, Hl.
    destruct (movie_block st movie) as [new|e] eqn:Eb; [clear Hb|discriminate].
    destruct (IH (fun m Hin => H m (or_intror Hin)) (elements ++ new))
      as [news [E [F [R L]]]].
    exists (new :: news). rewrite E, R, L. cbn [List.concat flat_map].
    rewrite <- app_assoc. repeat split. constructor; [exact Eb|exact F].
Qed.

(** The loop returns only when the paragraphs of every record were
    built. *)
Lemma loop_returned (st : styles) (ms : list movie_data) :
  forall elements l,
    loop_block st ms elements = Ok l ->
    forall movie, In movie ms -> markup_accepted st movie.
Proof.
  induction ms as [|m ms IH]; intros elements l H movie Hin; [destruct Hin|].
  cbn [loop_block] in H. unfold Py.bind in H.
  destruct (movie_block st m) as [new|e] eqn:Eb; [|discriminate].
  destruct Hin as [<-|Hin].
  - exact (movie_block_returned st m new Eb).
  - exact (IH _ _ H movie Hin).
Qed.

(** Whatever happens, the loop has sent the first of the requests the
    records ask for, each with the header set of [__init__]. *)
Lemma loop_requests_prefix (st : styles) (ms : list movie_data) :
  exists rest, loop_requests st ms ++ rest = flat_map asset_requests ms.
Proof.
  induction ms as [|movie ms [rest IH]]; [now exists []|].
  cbn [loop_requests flat_map].
  destruct (movie_block st movie) as [new|e] eqn:Eb.
  - destruct (movie_requests_accepted st movie
                (movie_block_returned st movie new Eb)) as [-> _].
    exists rest. now rewrite <- app_assoc, IH.
  - destruct (movie_requests_prefix st movie) as [r Hr].
    exists (r ++ flat_map asset_requests ms).
    now rewrite app_nil_r, app_assoc, Hr.
Qed.

Lemma asset_requests_urls (ms : list movie_data) :
  map url (flat_map asset_requests ms) =
  flat_map (fun movie => filter truthy [poster_url movie; flag_url movie]) ms.
Proof.
  induction ms as [|movie ms IH]; [reflexivity|].
  cbn [flat_map]. rewrite map_app, IH. f_equal.
  unfold asset_requests. cbn [filter].
  destruct (truthy (poster_url movie)), (truthy (flag_url movie)); reflexivity.
Qed.

Lemma asset_requests_headers (ms : list movie_data) :
  Forall (fun q => sent_headers q = Some (headers self))
         (flat_map asset_requests ms).
Proof.
  induction ms as [|movie ms IH]; [constructor|].
  cbn [flat_map]. apply Forall_app. split; [|exact IH].
  unfold asset_requests.
  destruct (truthy (poster_url movie)), (truthy (flag_url movie));
    repeat constructor.
Qed.

Lemma count_occ_prefix (l rest : list string) (u : string) :
  count_occ string_dec l u <= count_occ string_dec (l ++ rest) u.
Proof. rewrite count_occ_app. lia. Qed.

(** The loop over records whose paragraphs are all built appends, for
    each, its block and the separator. *)
Lemma loop_block_accepted (st : styles) (ms : list movie_data) :
  (forall movie, In movie ms -> markup_accepted st movie) ->
  forall elements,
    loop_block st ms elements =
    Ok (elements
        ++ flat_map (fun movie => [block_of st movie; _create_movie_separator])
                    ms).
Proof.
  induction ms as [|movie ms IH]; intros H elements.
  - cbn. now rewrite app_nil_r.
  - cbn [loop_block flat_map]. unfold Py.bind.
    rewrite (movie_block_accepted st movie (H movie (or_introl eq_refl))).
    rewrite (IH (fun m Hin => H m (or_intror Hin))).
    now rewrite <- app_assoc.
Qed.


(** What [export_to_pdf] does when every paragraph is built and the
    build succeeds. *)
Lemma export_to_pdf_accepted (output_filename : string) (s : state) :
  (forall movie, In movie (movies s) -> markup_accepted _create_styles movie) ->
  (forall elements,
      doc_build (mkDocument output_filename "A4" 36 36 72 72 elements) = Ok tt) ->
  export_to_pdf output_filename s =
  (Ok (mkDocument output_filename "A4" 36 36 72 72
         (flat_map (fun movie => [block_of _create_styles movie;
                                  _create_movie_separator]) (movies s))),
   {| movies := movies s;
      sent := sent s ++ flat_map asset_requests (movies s);
      printed := printed s ++ flat_map diagnostics_of (movies s) |}).
Proof.
  intros Hm Hb. rewrite export_to_pdf_run.
  rewrite (loop_block_accepted _ (movies s) Hm). cbn [app]. rewrite Hb.
  destruct (loop_accepted _create_styles (movies s) Hm [])
    as [news [_ [_ [-> ->]]]].
  reflexivity.
Qed.

(** A document is returned only when every paragraph was built. *)
Lemma export_to_pdf_returned
    (output_filename : string) (s s' : state) (doc : document) :
  export_to_pdf output_filename s = (Ok doc, s') ->
  (forall movie, In movie (movies s) -> markup_accepted _create_styles movie)
  /\ doc = mkDocument output_filename "A4" 36 36 72 72
             (flat_map (fun movie => [block_of _create_styles movie;
                                      _create_movie_separator]) (movies s))
  /\ s' = {| movies := movies s;
             sent := sent s ++ flat_map asset_requests (movies s);
             printed := printed s ++ flat_map diagnostics_of (movies s) |}.
Proof.
  intros H. rewrite export_to_pdf_run in H.
  destruct (loop_block _create_styles (movies s) []) as [elements|e] eqn:El;
    [|discriminate].
  pose proof (loop_returned _ _ _ _ El) as Hm.
  rewrite (loop_block_accepted _ (movies s) Hm) in El. cbn [app] in El.
  injection El as <-.
  destruct (doc_build _) as [u|e]; [|discriminate].
  destruct (loop_accepted _create_styles (movies s) Hm [])
    as [news [_ [_ [R L]]]].
  rewrite R, L in H. injection H as <- <-. auto.
Qed.

Lemma nth_error_blocks {A B} (f : A -> B) (sep : B) (l : list A) :
  forall i,
    nth_error (flat_map (fun x => [f x; sep]) l) (2 * i)
    = option_map f (nth_error l i).
Proof.
  induction l as [|x l IH]; intros [|i]; try reflexivity.
  replace (2 * S i) with (S (S (2 * i))) by lia.
  cbn [flat_map app nth_error]. apply IH.
Qed.

(** C3. Whenever [export_to_pdf] returns a document, the document holds,
    for each record in order, one block followed by the separator; a
    block is a one-row table of the poster cell and the info cell, and
    the info cell holds the title row (title, then flag), the rating
    line, the spacer and then the year, director and cast lines, in
    that order.  A document is returned whenever every paragraph text
    is valid markup and the build succeeds. *)
Theorem export_one_block_per_record (output_filename : string) (s : state) :
  (forall doc s',
      export_to_pdf output_filename s = (Ok doc, s') ->
      exists blocks,
        story doc =
        flat_map
          (fun b =>
             [b;
              Table [[CellStr EmptyString]] [((65 # 10) * inch)%Q] (Some [1%Q])
                    [Cmd "LINEABOVE" (0, 0)%Z (-1, 0)%Z ["0.5"; "#CCCCCC"];
                     Cmd "TOPPADDING" (0, 0)%Z (-1, 0)%Z ["15"];
                     Cmd "BOTTOMPADDING" (0, 0)%Z (-1, 0)%Z ["15"]]])
          blocks
        /\ List.length blocks = List.length (movies s)
        /\ Forall2
             (fun movie b =>
                exists poster_cell flag_cells,
                  b = Table
                        [[CellList poster_cell;
                          CellList
                            ([Table
                                [CellFlowable
                                   (Paragraph (title movie)
                                      (movie_title_style _create_styles))
                                 :: flag_cells]
                                [((52 # 10) * inch)%Q; ((3 # 10) * inch)%Q] None
                                [Cmd "VALIGN" (0, 0)%Z (-1, -1)%Z ["MIDDLE"];
                                 Cmd "ALIGN" (0, 0)%Z (0, 0)%Z ["LEFT"];
                                 Cmd "ALIGN" (1, 0)%Z (1, 0)%Z ["RIGHT"];
                                 Cmd "LEFTPADDING" (0, 0)%Z (-1, -1)%Z ["0"];
                                 Cmd "RIGHTPADDING" (0, 0)%Z (-1, -1)%Z ["0"]];
                              Paragraph ("<b>" ++ own_rating movie ++ "</b> ("
                                         ++ rating movie ++ ")")
                                        (rating_style _create_styles);
                              Spacer 1 4]
                             ++ info_line "<b>Year:</b> " (year movie)
                                  (movie_info_style _create_styles)
                             ++ info_line "<b>Director:</b> " (director movie)
                                  (movie_info_style _create_styles)
                             ++ info_line "<b>Cast:</b> " (cast movie)
                                  (movie_info_style _create_styles))]]
                        [(1 * inch)%Q; ((55 # 10) * inch)%Q] None
                        [Cmd "VALIGN" (0, 0)%Z (-1, -1)%Z ["TOP"];
                         Cmd "LEFTPADDING" (0, 0)%Z (-1, -1)%Z ["0"];
                         Cmd "RIGHTPADDING" (0, 0)%Z (-1, -1)%Z ["0"]]
                  /\ (poster_cell = []
                      \/ exists data,
                          poster_cell
                          = [Image data ((8 # 10) * inch) ((12 # 10) * inch)])
                  /\ (flag_cells = [] \/ flag_cells = [CellStr EmptyString]
                      \/ exists data,
                          flag_cells = [CellFlowable (Image data 16 12)]))
             (movies s) blocks)
  /\ ((forall movie, In movie (movies s) ->
                     markup_accepted _create_styles movie) ->
      (forall elements,
          doc_build (mkDocument output_filename "A4" 36 36 72 72 elements)
          = Ok tt) ->
      exists doc s', export_to_pdf output_filename s = (Ok doc, s')).
Proof.
  split.
  - intros doc s' H.
    apply export_to_pdf_returned in H. destruct H as [_ [-> _]].
    cbn [story]. set (st := _create_styles).
    exists (map (block_of st) (movies s)). split; [|split].
    + induction (movies s) as [|m ms IH]; [reflexivity|].
      cbn [flat_map map]. now rewrite <- IH.
    + apply List.length_map.
    + induction (movies s) as [|m ms IH]; [constructor|].
      cbn [map]. constructor; [|exact IH].
      exists (poster_cell_of m), (flag_cells_of m). split; [reflexivity|].
      split.
      * unfold poster_cell_of.
        destruct (truthy (poster_url m)); [|now left].
        destruct (asset_fetch (poster_url m)); [right; eauto|now left].
      * unfold flag_cells_of.
        destruct (truthy (flag_url m)); [|now right; left].
        destruct (asset_fetch (flag_url m)); [right; right; eauto|now left].
  - intros Hm Hb. rewrite (export_to_pdf_accepted output_filename s Hm Hb).
    eauto.
Qed.

(** C10. In every document [export_to_pdf] returns, the block of each
    record holds the rating paragraph as the second element of its info
    cell, whatever the two ratings are: it reads [<b></b> ()] when both
    are empty.  The year, director and cast lines follow only for a
    field that is not empty. *)
Theorem rating_line_unconditional
    (output_filename : string) (s s' : state) (doc : document)
    (i : nat) (movie : movie_data) :
  export_to_pdf output_filename s = (Ok doc, s') ->
  nth_error (movies s) i = Some movie ->
  exists poster_cell title_row info_cell,
    nth_error (story doc) (2 * i)
    = Some (Table [[CellList poster_cell; CellList info_cell]]
                  [(1 * inch)%Q; ((55 # 10) * inch)%Q] None
                  [Cmd "VALIGN" (0, 0)%Z (-1, -1)%Z ["TOP"];
                   Cmd "LEFTPADDING" (0, 0)%Z (-1, -1)%Z ["0"];
                   Cmd "RIGHTPADDING" (0, 0)%Z (-1, -1)%Z ["0"]])
    /\ info_cell
       = [title_row;
          Paragraph ("<b>" ++ own_rating movie ++ "</b> (" ++ rating movie ++ ")")
                    (rating_style _create_styles);
          Spacer 1 4]
         ++ (if truthy (year movie)
             then [Paragraph ("<b>Year:</b> " ++ year movie)
                             (movie_info_style _create_styles)]
             else [])
         ++ (if truthy (director movie)
             then [Paragraph ("<b>Director:</b> " ++ director movie)
                             (movie_info_style _create_styles)]
             else [])
         ++ (if truthy (cast movie)
             then [Paragraph ("<b>Cast:</b> " ++ cast movie)
                             (movie_info_style _create_styles)]
             else [])
    /\ (own_rating movie = EmptyString -> rating movie = EmptyString ->
        nth_error info_cell 1
        = Some (Paragraph "<b></b> ()" (rating_style _create_styles)))
    /\ (year movie = EmptyString -> director movie = EmptyString ->
        cast movie = EmptyString ->
        List.length info_cell = 3).
Proof.
  intros H Hi.
  apply export_to_pdf_returned in H. destruct H as [_ [-> _]].
  cbn [story]. rewrite nth_error_blocks, Hi. cbn [option_map].
  eexists. eexists. eexists. split; [reflexivity|].
  split; [reflexivity|]. split.
  - intros Ho Hr. rewrite Ho, Hr. reflexivity.
  - intros Hy Hd Hc. unfold info_line. rewrite Hy, Hd, Hc. reflexivity.
Qed.

(** C4 (amended). In every export run, each request carries the header
    set of [__init__], and a URL is asked for at most as many times as
    the records refer to it, as a poster or as a flag; when the export
    returns a document, the requests are those of every record in
    order, so that a URL is asked for exactly as many times as the
    records refer to it. *)
Theorem export_requests_once_per_reference
    (output_filename : string) (s : state) :
  exists new,
    sent (snd (export_to_pdf output_filename s)) = sent s ++ new
    /\ Forall (fun q => sent_headers q = Some (headers self)) new
    /\ (forall u,
          count_occ string_dec (map url new) u <= references u (movies s))
    /\ (forall doc,
          fst (export_to_pdf output_filename s) = Ok doc ->
          new = flat_map asset_requests (movies s)
          /\ forall u,
               count_occ string_dec (map url new) u
               = references u (movies s)).
Proof.
  exists (loop_requests _create_styles (movies s)).
  destruct (loop_requests_prefix _create_styles (movies s)) as [rest Hp].
  split; [now rewrite export_to_pdf_run|]. split; [|split].
  - pose proof (asset_requests_headers (movies s)) as Hh.
    rewrite <- Hp in Hh. now apply Forall_app in Hh.
  - intros u. unfold references. rewrite <- asset_requests_urls, <- Hp, map_app.
    apply count_occ_prefix.
  - intros doc Hd.
    destruct (export_to_pdf output_filename s) as [r s'] eqn:E.
    cbn [fst] in Hd. subst r.
    destruct (export_to_pdf_returned _ _ _ _ E) as [Hm _].
    destruct (loop_accepted _create_styles (movies s) Hm [])
      as [news [_ [_ [R _]]]].
    split; [exact R|].
    intros u. unfold references. now rewrite R, asset_requests_urls.
Qed.


(* ------------------------------------------------------------------ *)
(** ** More on field extraction *)

Lemma split_head (s : string) :
  exists w ws,
    split " " s = w :: ws
    /\ no_space w
    /\ (s = w \/ exists rest, s = (w ++ " " ++ rest)%string).
Proof.
  induction s as [|c s IH].
  - exists EmptyString, []. repeat split; [intros c []|now left].
  - destruct IH as [w [ws [E [Hn Hs]]]]. cbn [split].
    destruct (Ascii.eqb_spec c " "%char) as [->|Hc].
    + exists EmptyString, (split " " s). repeat split; [intros c []|].
      right. now exists s.
    + rewrite E. exists (String c w), ws. repeat split.
      * intros c' [<-|Hin]; [exact Hc|now apply Hn].
      * destruct Hs as [->|[rest ->]]; [now left|right; now exists rest].
Qed.

Lemma rstrip_cons (c : ascii) (s : string) :
  isspace c = false -> rstrip (String c s) = String c (rstrip s).
Proof.
  intros Hc. cbn [rstrip]. rewrite Hc. now destruct (rstrip s).
Qed.

Lemma rstrip_idempotent (s : string) : rstrip (rstrip s) = rstrip s.
Proof.
  induction s as [|c s IH]; [reflexivity|].
  cbn [rstrip]. destruct (rstrip s) as [|c' r] eqn:E.
  - destruct (isspace c) eqn:Hc; [reflexivity|].
    cbn [rstrip]. now rewrite Hc.
  - cbn [rstrip] in *. now rewrite IH.
Qed.

Lemma lstrip_head (s : string) :
  lstrip s = EmptyString
  \/ exists c t, lstrip s = String c t /\ isspace c = false.
Proof.
  induction s as [|c s IH]; [now left|].
  cbn [lstrip]. destruct (isspace c) eqn:Hc; [exact IH|].
  right. now exists c, s.
Qed.

Lemma strip_idempotent (s : string) : strip (strip s) = strip s.
Proof.
  unfold strip. destruct (lstrip_head s) as [->|[c [t [-> Hc]]]];
    [reflexivity|].
  rewrite (rstrip_cons c t Hc). cbn [lstrip]. rewrite Hc.
  rewrite <- (rstrip_cons c t Hc). apply rstrip_idempotent.
Qed.

Lemma text_or_stripped (elem : option node) (default : string) :
  strip default = default ->
  strip (text_or elem default) = text_or elem default.
Proof.
  intros H. destruct elem as [e|]; [apply strip_idempotent|exact H].
Qed.

(** The poster URL of an extracted record is the part of the
    [data-srcset] attribute before its first space: it holds no space,
    and the attribute is that URL alone or that URL, a space and the
    rest. *)
Theorem poster_url_first_token
    (movie parent_element img : node) (d : movie_data) :
  find "img" "lazyload" movie = Some img ->
  _extract_movie_data movie parent_element = Ok d ->
  no_space (poster_url d)
  /\ (get img "data-srcset" EmptyString = poster_url d
      \/ exists rest,
          get img "data-srcset" EmptyString
          = (poster_url d ++ " " ++ rest)%string).
Proof.
  intros Hf Hd.
  destruct (extract_ok_inv _ _ _ Hd) as [[tb Ht] [rb Hr]].
  destruct (extract_ok movie parent_element _ _ Ht Hr) as [poster [E P]].
  rewrite E in Hd. injection Hd as <-. cbn [poster_url].
  rewrite Hf in P.
  destruct (split_head (get img "data-srcset" EmptyString))
    as [w [ws [Es [Hn Hs]]]].
  rewrite Es in P. injection P as <-. now split.
Qed.

(** The poster URL is empty exactly when the record node has no poster
    image, or its [data-srcset] attribute is missing, empty or begins
    with a space. *)
Theorem poster_url_empty_iff
    (movie parent_element : node) (d : movie_data) :
  _extract_movie_data movie parent_element = Ok d ->
  (poster_url d = EmptyString
   <-> match find "img" "lazyload" movie with
       | None => True
       | Some img =>
           get img "data-srcset" EmptyString = EmptyString
           \/ exists rest,
               get img "data-srcset" EmptyString = String " " rest
       end).
Proof.
  intros Hd.
  destruct (extract_ok_inv _ _ _ Hd) as [[tb Ht] [rb Hr]].
  destruct (extract_ok movie parent_element _ _ Ht Hr) as [poster [E P]].
  rewrite E in Hd. injection Hd as <-. cbn [poster_url].
  destruct (find "img" "lazyload" movie) as [img|]; [|now subst].
  destruct (get img "data-srcset" EmptyString) as [|c a] eqn:Ea.
  - injection P as <-. split; auto.
  - cbn [split] in P. destruct (Ascii.eqb_spec c " "%char) as [->|Hc].
    + injection P as <-. split; [right; now exists a|reflexivity].
    + destruct (split " " a); injection P as <-;
        (split; [discriminate|]);
        (intros [H|[rest H]]; [discriminate|]);
        injection H as H _; contradiction.
Qed.

(** The six text fields of an extracted record carry no surrounding
    whitespace: stripping any of them again changes nothing. *)
Theorem extracted_text_is_stripped
    (movie parent_element : node) (d : movie_data) :
  _extract_movie_data movie parent_element = Ok d ->
  strip (title d) = title d
  /\ strip (year d) = year d
  /\ strip (rating d) = rating d
  /\ strip (own_rating d) = own_rating d
  /\ strip (director d) = director d
  /\ strip (cast d) = cast d.
Proof.
  intros Hd.
  destruct (extract_ok_inv _ _ _ Hd) as [[tb Ht] [rb Hr]].
  destruct (extract_ok movie parent_element _ _ Ht Hr) as [poster [E _]].
  rewrite E in Hd. injection Hd as <-.
  cbn [title year rating own_rating director cast].
  repeat split; now apply text_or_stripped.
Qed.

(** Only the personal rating looks at the context node: extracted
    against another context, a record node gives the same title, year,
    rating, director, cast, poster URL and flag URL. *)
Theorem context_changes_own_rating_only
    (movie parent1 parent2 : node) (d1 : movie_data) :
  _extract_movie_data movie parent1 = Ok d1 ->
  exists d2,
    _extract_movie_data movie parent2 = Ok d2
    /\ title d2 = title d1 /\ year d2 = year d1 /\ rating d2 = rating d1
    /\ director d2 = director d1 /\ cast d2 = cast d1
    /\ poster_url d2 = poster_url d1 /\ flag_url d2 = flag_url d1.
Proof.
  intros Hd.
  destruct (extract_ok_inv _ _ _ Hd) as [[tb Ht] [rb Hr]].
  destruct (extract_ok movie parent1 _ _ Ht Hr) as [p1 [E1 P1]].
  destruct (extract_ok movie parent2 _ _ Ht Hr) as [p2 [E2 P2]].
  rewrite E1 in Hd. injection Hd as <-.
  eexists. split; [exact E2|]. cbn. repeat split.
  destruct (find "img" "lazyload" movie); [|congruence].
  rewrite P1 in P2. now injection P2.
Qed.

(** The personal rating depends on the context node alone: all record
    nodes extracted against one context node get the same personal
    rating. *)
Theorem own_rating_shared_by_siblings
    (movie1 movie2 parent_element : node) (d1 d2 : movie_data) :
  _extract_movie_data movie1 parent_element = Ok d1 ->
  _extract_movie_data movie2 parent_element = Ok d2 ->
  own_rating d1 = own_rating d2.
Proof.
  intros H1 H2.
  destruct (extract_ok_inv _ _ _ H1) as [[tb1 Ht1] [rb1 Hr1]].
  destruct (extract_ok_inv _ _ _ H2) as [[tb2 Ht2] [rb2 Hr2]].
  destruct (extract_ok movie1 parent_element _ _ Ht1 Hr1) as [p1 [E1 _]].
  destruct (extract_ok movie2 parent_element _ _ Ht2 Hr2) as [p2 [E2 _]].
  rewrite E1 in H1. rewrite E2 in H2.
  injection H1 as <-. injection H2 as <-. reflexivity.
Qed.

(** The flag URL is empty exactly when the record node has no flag
    image; with a flag image it is the site root followed by the [src]
    attribute, hence not empty even when the attribute is missing. *)
Theorem flag_url_empty_iff_no_flag_image
    (movie parent_element : node) (d : movie_data) :
  _extract_movie_data movie parent_element = Ok d ->
  (truthy (flag_url d) = false <-> find "img" "nflag" movie = None)
  /\ (forall img,
        find "img" "nflag" movie = Some img ->
        flag_url d
        = ("https://www.filmaffinity.com/" ++ get img "src" EmptyString)%string).
Proof.
  intros Hd.
  destruct (extract_ok_inv _ _ _ Hd) as [[tb Ht] [rb Hr]].
  destruct (extract_ok movie parent_element _ _ Ht Hr) as [poster [E _]].
  rewrite E in Hd. injection Hd as <-. cbn [flag_url].
  destruct (find "img" "nflag" movie) as [img|].
  - split; [split; discriminate|]. now intros img' [= <-].
  - split; [now split|]. discriminate.
Qed.

(** Extraction raises nothing but the AttributeError of a missing
    container: taking the first token of the poster attribute never
    fails. *)
Theorem extract_raises_only_attribute_error
    (movie parent_element : node) (e : exn) :
  _extract_movie_data movie parent_element = Err e ->
  e = AttributeError
  /\ (find "div" "mc-title" movie = None
      \/ find "div" "fa-avg-rat-box" movie = None).
Proof.
  intros He.
  destruct (find "div" "mc-title" movie) as [tb|] eqn:Ht.
  - destruct (find "div" "fa-avg-rat-box" movie) as [rb|] eqn:Hr.
    + destruct (extract_ok movie parent_element _ _ Ht Hr) as [p [E _]].
      rewrite E in He. discriminate.
    + rewrite extract_err in He by auto. injection He as <-. auto.
  - rewrite extract_err in He by auto. injection He as <-. auto.
Qed.

(* ------------------------------------------------------------------ *)
(** ** More on retrieval *)

Lemma to_uint_not_nil (n : nat) : Nat.to_uint n <> Nil.
Proof.
  intros H. pose proof (DecimalNat.Unsigned.of_to n) as E.
  rewrite H in E. cbn in E. subst n. discriminate.
Qed.

Lemma str_of_nat_inj (p q : nat) : str_of_nat p = str_of_nat q -> p = q.
Proof.
  unfold str_of_nat. intros H.
  apply DecimalNat.Unsigned.to_uint_inj.
  pose proof (NilZero.usu _ (to_uint_not_nil p)) as Hp.
  pose proof (NilZero.usu _ (to_uint_not_nil q)) as Hq.
  rewrite H in Hp. rewrite Hp in Hq. now injection Hq.
Qed.

Lemma append_inj_r (a b c : string) : (a ++ b = a ++ c)%string -> b = c.
Proof.
  induction a as [|x a IH]; cbn; [auto|]. intros [= H]. now apply IH.
Qed.

(** After [k] full pages the loop is where it would be had it started
    at page [page + k] with their records appended. *)
Lemma get_voted_movies_from_skip (recs : nat -> list movie_data) (k : nat) :
  forall (page fuel : nat) (s : state),
    (forall q, page <= q < page + k -> full_page recs q) ->
    get_voted_movies_from (k + fuel) page s =
    get_voted_movies_from fuel (page + k)
      {| movies := movies s ++ flat_map recs (seq page k);
         sent := sent s
                 ++ map (fun q => Get (listing_url self q) None) (seq page k);
         printed := printed s |}.
Proof.
  induction k as [|k IH]; intros page fuel s Hfull.
  - cbn [seq flat_map map Nat.add]. rewrite Nat.add_0_r, !app_nil_r.
    now destruct s.
  - destruct (Hfull page ltac:(lia)) as [r [Hnet [H200 [Hne Hex]]]].
    cbn [Nat.add get_voted_movies_from]. unfold requests_get. rewrite Hnet.
    rewrite H200. cbn [Z.eqb Pos.eqb negb].
    unfold page_elements in Hne, Hex.
    destruct (find_all_with_parent "div" "user-ratings-movie-item"
                (BeautifulSoup (html_parser (text_of r)))) as [|mp l] eqn:El;
      [contradiction|].
    rewrite (for_each_collect _ _ _ Hex).
    rewrite IH by (intros q Hq; apply Hfull; lia).
    cbn [movies sent printed seq flat_map map].
    rewrite <- !app_assoc. cbn [app].
    now replace (S page + k) with (page + S k) by lia.
Qed.

(** The inner loop stops at the first record node whose extraction
    raises, with the records of the nodes before it appended. *)
Lemma for_each_collect_raises
    (l1 l2 : list (node * node)) (mp : node * node)
    (ds : list movie_data) (e : exn) (s : state) :
  extract_all l1 = Ok ds ->
  _extract_movie_data (fst mp) (snd mp) = Err e ->
  for_each (l1 ++ mp :: l2) collect s =
  (Err e, {| movies := movies s ++ ds; sent := sent s; printed := printed s |}).
Proof.
  revert ds s. induction l1 as [|x l1 IH]; intros ds s H1 He; simpl in *.
  - injection H1 as <-. unfold bindM, collect, lift. cbv zeta.
    rewrite He, app_nil_r. now destruct s.
  - unfold bindM, collect, lift, movies_append, Py.bind in *.
    destruct (_extract_movie_data (fst x) (snd x)) as [d|e']; [|discriminate].
    destruct (extract_all l1) as [ds'|e']; [|discriminate].
    injection H1 as <-. simpl. rewrite (IH ds' _ eq_refl He).
    simpl. now rewrite <- app_assoc.
Qed.

(** An exception of [requests.get] on a listing page is not caught:
    when pages 1 to [k] are full and the request for page [k + 1]
    raises, retrieval raises that exception, with the records of pages
    1 to [k] already in [self.movies]. *)
Theorem retrieval_network_error_propagates
    (recs : nat -> list movie_data) (k fuel : nat) (s : state) (e : exn) :
  (forall q, 1 <= q < 1 + k -> full_page recs q) ->
  net (Get (listing_url self (1 + k)) None) = Raises e ->
  k < fuel ->
  get_voted_movies fuel s =
  Some (Err e,
        {| movies := movies s ++ flat_map recs (seq 1 k);
           sent := sent s
                   ++ map (fun q => Get (listing_url self q) None) (seq 1 (S k));
           printed := printed s |}).
Proof.
  intros Hfull Hnet Hfuel. unfold get_voted_movies.
  replace fuel with (k + S (fuel - S k)) by lia.
  rewrite (get_voted_movies_from_skip recs k 1 _ s Hfull).
  cbn [get_voted_movies_from]. unfold requests_get. rewrite Hnet.
  cbn [movies sent printed]. rewrite <- app_assoc.
  replace (seq 1 (S k)) with (seq 1 k ++ [1 + k]) by (now rewrite seq_S).
  now rewrite map_app.
Qed.

(** An exception of field extraction is not caught either: when pages
    1 to [k] are full and, on page [k + 1], the nodes [before] extract
    to [ds] and the next node raises, retrieval raises that exception,
    with the records of pages 1 to [k] and [ds] already in
    [self.movies]. *)
Theorem retrieval_keeps_partial_page
    (recs : nat -> list movie_data) (k fuel : nat) (s : state) (e : exn)
    (r : Response) (before after : list (node * node)) (mp : node * node)
    (ds : list movie_data) :
  (forall q, 1 <= q < 1 + k -> full_page recs q) ->
  net (Get (listing_url self (1 + k)) None) = Responds r ->
  status_code r = 200%Z ->
  page_elements r = before ++ mp :: after ->
  extract_all before = Ok ds ->
  _extract_movie_data (fst mp) (snd mp) = Err e ->
  k < fuel ->
  get_voted_movies fuel s =
  Some (Err e,
        {| movies := movies s ++ flat_map recs (seq 1 k) ++ ds;
           sent := sent s
                   ++ map (fun q => Get (listing_url self q) None) (seq 1 (S k));
           printed := printed s |}).
Proof.
  intros Hfull Hnet H200 Hpage Hds He Hfuel. unfold get_voted_movies.
  replace fuel with (k + S (fuel - S k)) by lia.
  rewrite (get_voted_movies_from_skip recs k 1 _ s Hfull).
  cbn [get_voted_movies_from]. unfold requests_get. rewrite Hnet, H200.
  cbn [Z.eqb Pos.eqb negb]. unfold page_elements in Hpage. rewrite Hpage.
  rewrite (for_each_collect_raises _ after _ _ _ _ Hds He).
  destruct (before ++ mp :: after) eqn:E;
    [now destruct before|].
  cbn [movies sent printed]. rewrite <- !app_assoc.
  replace (seq 1 (S k)) with (seq 1 k ++ [1 + k]) by (now rewrite seq_S).
  now rewrite map_app.
Qed.

(** The inner loop prints nothing. *)
Lemma for_each_collect_printed (l : list (node * node)) (s : state) :
  printed (snd (for_each l collect s)) = printed s.
Proof.
  revert s. induction l as [|mp l IH]; intros s; simpl; [reflexivity|].
  unfold bindM, collect, lift, movies_append.
  destruct (_extract_movie_data (fst mp) (snd mp)) as [d|e]; simpl;
    [|reflexivity].
  now rewrite IH.
Qed.

Lemma get_voted_movies_from_sent (fuel : nat) :
  forall (page : nat) (s s' : state) (r : result unit),
    get_voted_movies_from fuel page s = Some (r, s') ->
    exists n,
      1 <= n <= fuel
      /\ sent s' = sent s
                   ++ map (fun q => Get (listing_url self q) None) (seq page n)
      /\ printed s' = printed s.
Proof.
  induction fuel as [|fuel IH]; intros page s s' r H; [discriminate|].
  cbn [get_voted_movies_from] in H. unfold requests_get in H.
  set (q := Get (listing_url self page) None) in *.
  assert (Hq : forall st : state,
             sent st = sent s ++ [q] -> printed st = printed s ->
             exists n, 1 <= n <= S fuel
               /\ sent st = sent s
                    ++ map (fun q => Get (listing_url self q) None) (seq page n)
               /\ printed st = printed s).
  { intros st Hst Hp. exists 1. repeat split; [lia|lia|exact Hst|exact Hp]. }
  destruct (net q) as [e|resp].
  - injection H as <- <-. now apply Hq.
  - destruct (negb (status_code resp =? 200)%Z).
    { injection H as <- <-. now apply Hq. }
    destruct (find_all_with_parent "div" "user-ratings-movie-item"
                (BeautifulSoup (html_parser (text_of resp)))) as [|mp l].
    { injection H as <- <-. now apply Hq. }
    match type of H with
    | context [for_each ?l ?b ?st] =>
        pose proof (for_each_collect_sent l st) as Hsent;
        pose proof (for_each_collect_printed l st) as Hpr;
        destruct (for_each l b st) as [[[]|e] s2]
    end; cbn [snd sent printed] in Hsent, Hpr.
    + apply IH in H. destruct H as [n [Hn [Hs Hp]]].
      exists (S n). repeat split; [lia|lia| |congruence].
      rewrite Hs, Hsent. cbn [seq map]. now rewrite <- app_assoc.
    + injection H as <- <-. now apply Hq.
Qed.

(** Whatever the outcome, a retrieval that ends has asked for the pages
    1, 2, ..., [n] in this order and nothing else, no request repeating
    an earlier one, and has printed nothing. *)
Theorem retrieval_requests_consecutive_pages
    (fuel : nat) (s s' : state) (r : result unit) :
  get_voted_movies fuel s = Some (r, s') ->
  exists n,
    1 <= n <= fuel
    /\ sent s' = sent s
                 ++ map (fun q => Get (listing_url self q) None) (seq 1 n)
    /\ NoDup (map (fun q => Get (listing_url self q) None) (seq 1 n))
    /\ printed s' = printed s.
Proof.
  intros H. apply get_voted_movies_from_sent in H.
  destruct H as [n [Hn [Hs Hp]]]. exists n.
  split; [exact Hn|]. split; [exact Hs|]. split; [|exact Hp].
  apply Finite.Injective_map_NoDup; [|apply seq_NoDup].
  intros a b [= E]. unfold listing_url in E.
  apply append_inj_r in E. apply append_inj_r in E.
  now apply str_of_nat_inj.
Qed.

(** Different pages have different URLs, whatever the user id. *)
Theorem listing_url_injective (p q : nat) :
  listing_url self p = listing_url self q -> p = q.
Proof.
  unfold listing_url. intros H.
  apply append_inj_r in H. apply append_inj_r in H.
  now apply str_of_nat_inj.
Qed.

(* ------------------------------------------------------------------ *)
(** ** More on the layout *)

(** Whether it returns or raises, an export leaves [self.movies] as it
    was; a document it returns carries the file name given and two
    elements per record. *)
Theorem export_keeps_records (output_filename : string) (s : state) :
  movies (snd (export_to_pdf output_filename s)) = movies s
  /\ forall doc s',
       export_to_pdf output_filename s = (Ok doc, s') ->
       filename doc = output_filename
       /\ List.length (story doc) = 2 * List.length (movies s).
Proof.
  split; [now rewrite export_to_pdf_run|].
  intros doc s' H. apply export_to_pdf_returned in H.
  destruct H as [_ [-> _]]. cbn [filename story]. split; [reflexivity|].
  induction (movies s) as [|m ms IH]; [reflexivity|].
  cbn [flat_map]. rewrite List.length_app, IH. cbn. lia.
Qed.

(** When the exports of a list of records, of its first part and of the
    rest all return a document, the elements of the first are those of
    the second followed by those of the third: no block depends on the
    records around it. *)
Theorem export_story_concat
    (output_filename : string) (s s1 s2 : state) (doc doc1 doc2 : document) :
  movies s = movies s1 ++ movies s2 ->
  fst (export_to_pdf output_filename s) = Ok doc ->
  fst (export_to_pdf output_filename s1) = Ok doc1 ->
  fst (export_to_pdf output_filename s2) = Ok doc2 ->
  story doc = story doc1 ++ story doc2.
Proof.
  intros H E E1 E2.
  destruct (export_to_pdf output_filename s) as [r t] eqn:R.
  destruct (export_to_pdf output_filename s1) as [r1 t1] eqn:R1.
  destruct (export_to_pdf output_filename s2) as [r2 t2] eqn:R2.
  cbn [fst] in E, E1, E2. subst r r1 r2.
  apply export_to_pdf_returned in R, R1, R2.
  destruct R as [_ [-> _]], R1 as [_ [-> _]], R2 as [_ [-> _]].
  cbn [story]. now rewrite H, flat_map_app.
Qed.

(** Records without poster URL and without flag URL are laid out
    without any request and without any diagnostic. *)
Theorem export_without_urls_is_offline (output_filename : string) (s : state) :
  (forall movie, In movie (movies s) ->
                 poster_url movie = EmptyString
                 /\ flag_url movie = EmptyString) ->
  snd (export_to_pdf output_filename s) = s.
Proof.
  intros H. rewrite export_to_pdf_run. cbn [snd].
  assert (E : loop_requests _create_styles (movies s) = []
              /\ loop_lines _create_styles (movies s) = []).
  { induction (movies s) as [|m ms IH]; [now split|].
    destruct (H m (or_introl eq_refl)) as [Hp Hf].
    destruct IH as [IH1 IH2]; [intros m' Hm'; apply H; now right|].
    cbn [loop_requests loop_lines]. rewrite IH1, IH2.
    unfold movie_requests, movie_lines, poster_lines_of, flag_lines_of.
    rewrite Hp, Hf. cbn [truthy].
    destruct (Paragraph_init (title m) (movie_title_style _create_styles));
      destruct (movie_block _create_styles m); now split. }
  destruct E as [-> ->]. rewrite !app_nil_r. now destruct s.
Qed.

(** A poster whose request is answered with bytes that decode as an
    image is rendered at 0.8 by 1.2 inch, whatever the status code of
    the answer; one request is sent and nothing is printed. *)
Theorem fetched_poster_is_rendered
    (movie : movie_data) (s : state) (r : Response) :
  truthy (poster_url movie) = true ->
  net (Get (poster_url movie) (Some (headers self))) = Responds r ->
  image_setup (content r) = Ok tt ->
  _create_movie_poster_cell movie s =
  (Ok [Image (content r) ((8 # 10) * inch) ((12 # 10) * inch)],
   {| movies := movies s;
      sent := sent s ++ [Get (poster_url movie) (Some (headers self))];
      printed := printed s |}).
Proof.
  intros Ht Hn Hi. rewrite poster_cell_run.
  unfold poster_cell_of, poster_lines_of, asset_fetch. rewrite Ht, Hn, Hi.
  now rewrite app_nil_r.
Qed.

(** The title paragraph is built before anything else: when its text
    is not valid markup, [_create_movie_title_table] raises without
    asking for the flag.  Otherwise it returns a one-row table that
    starts with the title paragraph, followed by the empty string when
    the record has no flag URL, by the flag image when the fetch
    succeeds, and by nothing when the fetch fails. *)
Theorem title_row_cells (movie : movie_data) (st : styles) (s : state) :
  (forall e,
      Paragraph_init (title movie) (movie_title_style st) = Err e ->
      _create_movie_title_table movie st s = (Err e, s))
  /\ (Paragraph_init (title movie) (movie_title_style st) = Ok tt ->
      exists rest s',
        _create_movie_title_table movie st s =
        (Ok (Table
               [CellFlowable (Paragraph (title movie) (movie_title_style st))
                :: rest]
               [((52 # 10) * inch)%Q; ((3 # 10) * inch)%Q] None
               [Cmd "VALIGN" (0, 0)%Z (-1, -1)%Z ["MIDDLE"];
                Cmd "ALIGN" (0, 0)%Z (0, 0)%Z ["LEFT"];
                Cmd "ALIGN" (1, 0)%Z (1, 0)%Z ["RIGHT"];
                Cmd "LEFTPADDING" (0, 0)%Z (-1, -1)%Z ["0"];
                Cmd "RIGHTPADDING" (0, 0)%Z (-1, -1)%Z ["0"]]), s')
        /\ (truthy (flag_url movie) = false -> rest = [CellStr EmptyString])
        /\ (truthy (flag_url movie) = true ->
            match asset_fetch (flag_url movie) with
            | Ok data => rest = [CellFlowable (Image data 16 12)]
            | Err _ => rest = []
            end)).
Proof.
  split.
  - intros e He. now rewrite title_table_run, He.
  - intros Ht. rewrite title_table_run, Ht.
    exists (flag_cells_of movie). eexists.
    split; [reflexivity|]. unfold flag_cells_of.
    destruct (truthy (flag_url movie)); split;
      try discriminate; intros _; [|reflexivity].
    now destruct (asset_fetch (flag_url movie)).
Qed.

(** An export sends at most two requests per record and prints at most
    one line per request. *)
Theorem export_diagnostics_bounded (output_filename : string) (s : state) :
  exists reqs lines,
    sent (snd (export_to_pdf output_filename s)) = sent s ++ reqs
    /\ printed (snd (export_to_pdf output_filename s)) = printed s ++ lines
    /\ List.length lines <= List.length reqs
    /\ List.length reqs <= 2 * List.length (movies s).
Proof.
  rewrite export_to_pdf_run. cbn [snd sent printed].
  eexists. eexists. split; [reflexivity|]. split; [reflexivity|].
  induction (movies s) as [|m ms [IH1 IH2]]; [split; cbn; lia|].
  cbn [loop_requests loop_lines]. rewrite !List.length_app.
  assert (List.length (movie_lines _create_styles m)
          <= List.length (movie_requests _create_styles m)
          /\ List.length (movie_requests _create_styles m) <= 2) as [H1 H2].
  { unfold movie_lines, movie_requests, poster_lines_of, flag_lines_of.
    destruct (Paragraph_init (title m) (movie_title_style _create_styles));
      destruct (truthy (poster_url m)), (truthy (flag_url m));
      repeat match goal with
             | |- context [asset_fetch ?u] => destruct (asset_fetch u)
             end; cbn; lia. }
  destruct (movie_block _create_styles m); cbn [List.length]; lia.
Qed.

(* ------------------------------------------------------------------ *)
(** ** The program *)

Lemma string_app_assoc (a b c : string) :
  ((a ++ b) ++ c = a ++ b ++ c)%string.
Proof. induction a as [|x a IH]; cbn; [reflexivity|now rewrite IH]. Qed.

Lemma listing_url_page1 (typed : string) :
  self = fst (__init__ typed) ->
  listing_url self 1 =
  ("https://www.filmaffinity.com/es/userratings.php?user_id="
   ++ typed ++ "&chv=list&orderby=rating&p=1")%string.
Proof.
  intros H. rewrite H. unfold listing_url. cbn [__init__ fst base_url].
  rewrite !string_app_assoc. reflexivity.
Qed.

Lemma main_first_phase (typed : string) :
  (user_id <- input "Please enter your FilmAffinity user ID: " typed ;;
   print "Getting rated movies..." ;;; ret user_id)%M
    (snd (__init__ typed))
  = (Ok typed,
     {| movies := []; sent := [];
        printed := ["Please enter your FilmAffinity user ID: ";
                    "Getting rated movies..."] |}).
Proof. reflexivity. Qed.

(** When retrieval returns, [main] announces the export and runs it on
    the records retrieved, under the name [fa_ratings_<id>.pdf]: when
    the export returns a document, [main] ends with the line giving the
    number of records; when the export raises, so does [main], and that
    line is not printed.  The first request went to page 1 of the
    listing of the id typed. *)
Theorem main_exports_what_was_retrieved
    (fuel : nat) (typed : string) (s2 : state) :
  self = fst (__init__ typed) ->
  get_voted_movies fuel
    {| movies := []; sent := [];
       printed := ["Please enter your FilmAffinity user ID: ";
                   "Getting rated movies..."] |} = Some (Ok tt, s2) ->
  (forall doc s3,
      export_to_pdf ("fa_ratings_" ++ typed ++ ".pdf")
        {| movies := movies s2; sent := sent s2;
           printed := printed s2
                      ++ [("Exporting to PDF: fa_ratings_" ++ typed
                           ++ ".pdf")%string] |} = (Ok doc, s3) ->
      main fuel typed =
      Some (Ok doc,
            {| movies := movies s3; sent := sent s3;
               printed := printed s3
                          ++ [("Export completed! "
                               ++ str_of_nat (List.length (movies s2))
                               ++ " movies have been exported.")%string] |})
      /\ filename doc = ("fa_ratings_" ++ typed ++ ".pdf")%string)
  /\ (forall e s3,
        export_to_pdf ("fa_ratings_" ++ typed ++ ".pdf")
          {| movies := movies s2; sent := sent s2;
             printed := printed s2
                        ++ [("Exporting to PDF: fa_ratings_" ++ typed
                             ++ ".pdf")%string] |} = (Err e, s3) ->
        main fuel typed = Some (Err e, s3))
  /\ exists later,
       sent s2 =
       Get ("https://www.filmaffinity.com/es/userratings.php?user_id="
            ++ typed ++ "&chv=list&orderby=rating&p=1") None :: later.
Proof.
  intros Hself H.
  pose proof (get_voted_movies_from_sent _ _ _ _ _ H) as [n [Hn [Hs Hp]]].
  cbn [sent printed app] in Hs, Hp.
  destruct n as [|n]; [lia|]. cbn [seq map] in Hs.
  rewrite (listing_url_page1 typed Hself) in Hs.
  split; [|split; [|eexists; exact Hs]].
  - intros doc s3 E.
    pose proof (export_to_pdf_returned _ _ _ _ E) as [_ [Hd Hs3]].
    cbn [movies] in Hs3.
    unfold main. cbv zeta. rewrite main_first_phase, H.
    unfold bindM at 1. unfold print at 1. unfold bindM at 1.
    assert (Hm3 : movies s3 = movies s2) by now rewrite Hs3.
    cbn [append] in E |- *. rewrite E.
    unfold bindM, print, ret. rewrite Hm3.
    split; [reflexivity|]. now rewrite Hd.
  - intros e s3 E.
    unfold main. cbv zeta. rewrite main_first_phase, H.
    unfold bindM at 1. unfold print at 1. unfold bindM at 1.
    cbn [append] in E |- *. now rewrite E.
Qed.

(** When retrieval raises, so does [main]: the export is neither
    announced nor run, and nothing is printed after the first two
    lines. *)
Theorem main_stops_when_retrieval_raises
    (fuel : nat) (typed : string) (s2 : state) (e : exn) :
  self = fst (__init__ typed) ->
  get_voted_movies fuel
    {| movies := []; sent := [];
       printed := ["Please enter your FilmAffinity user ID: ";
                   "Getting rated movies..."] |} = Some (Err e, s2) ->
  main fuel typed = Some (Err e, s2)
  /\ printed s2 = ["Please enter your FilmAffinity user ID: ";
                   "Getting rated movies..."]
  /\ exists later,
       sent s2 =
       Get ("https://www.filmaffinity.com/es/userratings.php?user_id="
            ++ typed ++ "&chv=list&orderby=rating&p=1") None :: later.
Proof.
  intros Hself H.
  pose proof (get_voted_movies_from_sent _ _ _ _ _ H) as [n [Hn [Hs Hp]]].
  cbn [sent printed app] in Hs, Hp.
  destruct n as [|n]; [lia|]. cbn [seq map] in Hs.
  rewrite (listing_url_page1 typed Hself) in Hs.
  split; [|split; [exact Hp|]].
  - unfold main. cbv zeta. now rewrite main_first_phase, H.
  - eexists. exact Hs.
Qed.

End Methods.

(* ------------------------------------------------------------------ *)
(** ** The statements on the small site *)

Import Fixture.
Local Open Scope nat_scope.

(** The poster URL is the first token of the candidates attribute. *)
Example poster_first_token :
  item0 (split " " "url1 480w, url2 960w") = Ok "url1".
Proof. reflexivity. Qed.

Example extract_alien : _extract_movie_data item_alien row_alien = Ok alien.
Proof. reflexivity. Qed.

(** A record node with nothing inside makes extraction raise. *)
Example extract_item_bare (parent_element : node) :
  _extract_movie_data item_bare parent_element = Err AttributeError.
Proof. reflexivity. Qed.

(** A record node that holds an empty personal-rating div, in a context
    node that carries ["8"] after it: the div of the record node is the
    first one below the context node, and the personal rating extracted
    is the empty string. *)
Lemma own_rating_taken_from_record_node :
  find "div" "fa-user-rat-box" item_own_empty = Some (el "div" ["fa-user-rat-box"] [])
  /\ row_own_empty = Tag "div" ["row"] [] [item_own_empty; rating_box "8"]
  /\ strip (text (rating_box "8")) = "8"
  /\ exists d,
       _extract_movie_data item_own_empty row_own_empty = Ok d
       /\ own_rating d = EmptyString
       /\ own_rating d <> "8".
Proof.
  repeat split. eexists. split; [reflexivity|].
  split; [reflexivity|discriminate].
Qed.

Lemma extract_raises_iff_container_missing_witness :
  exists e, _extract_movie_data item_bare row_alien = Err e.
Proof.
  apply (extract_raises_iff_container_missing item_bare row_alien).
  left. reflexivity.
Defined.

Lemma own_rating_from_context_witness :
  exists d,
    _extract_movie_data item_plain
      (Tag "div" ["row"] [] ([] ++ item_plain :: [rating_box "8"])) = Ok d
    /\ own_rating d = "8".
Proof.
  apply (own_rating_from_context "div" ["row"] [] [] [rating_box "8"] item_plain
           (rating_box "8") (el "div" ["mc-title"] [])
           (el "div" ["fa-avg-rat-box"] []));
    reflexivity.
Defined.


(** Page 1 answers 203, a successful status, and holds a record node;
    retrieval stops there and appends nothing. *)
Lemma pagination_stops_on_203 :
  exists r,
    site_203 (Get (listing_url self123 1) None) = Responds r
    /\ is_2xx (status_code r) = true
    /\ page_elements toy_parser r = [(item_alien, row_alien)]
    /\ get_voted_movies site_203 toy_parser self123 5 state0 =
       Some (Ok tt,
             {| movies := [];
                sent := [Get (listing_url self123 1) None];
                printed := [] |}).
Proof. eexists. repeat split. Qed.

Lemma pagination_until_first_break_witness :
  get_voted_movies site toy_parser self123 5 state0 =
  Some (Ok tt,
        {| movies := movies state0 ++ flat_map (fun _ => [alien]) (seq 1 1);
           sent := sent state0
                   ++ map (fun q => Get (listing_url self123 q) None) (seq 1 2);
           printed := printed state0 |}).
Proof.
  apply (pagination_until_first_break site toy_parser self123
           (fun _ => [alien]) 1 5 state0).
  - intros q Hq. assert (q = 1) as -> by lia.
    exists (mkResponse 200 "page-alien"). repeat split. discriminate.
  - exists (mkResponse 200 EmptyString). split; [reflexivity|]. now right.
  - lia.
Defined.

Lemma retrieval_appends_witness :
  exists new,
    movies (with_movies [alien]) = movies state0 ++ new
    /\ (forall s, exists s',
          get_voted_movies site toy_parser self123 5 s = Some (Ok tt, s')
          /\ movies s' = movies s ++ new
          /\ List.length (movies s') = List.length (movies s) + List.length new)
    /\ (exists s2,
          get_voted_movies site toy_parser self123 5 (with_movies [alien])
          = Some (Ok tt, s2)
          /\ movies s2 = movies state0 ++ new ++ new).
Proof.
  destruct (retrieval_appends site toy_parser self123 5 state0
              {| movies := [alien];
                 sent := [Get (listing_url self123 1) None;
                          Get (listing_url self123 2) None];
                 printed := [] |} (Ok tt) eq_refl)
    as [new [H1 [H2 [s2 [H3 H4]]]]].
  exists new. split; [exact H1|]. split; [exact H2|].
  destruct (H2 (with_movies [alien])) as [s' [E [M _]]].
  exists s'. split; [exact E|].
  rewrite M. simpl in H1. rewrite <- H1. reflexivity.
Defined.

Lemma listing_requests_carry_no_headers_witness :
  exists new,
    [Get (listing_url self123 1) None; Get (listing_url self123 2) None]
    = sent state0 ++ new
    /\ new <> []
    /\ Forall (fun q => sent_headers q = None) new.
Proof.
  exact (listing_requests_carry_no_headers site toy_parser self123 5 state0
           {| movies := [alien];
              sent := [Get (listing_url self123 1) None;
                       Get (listing_url self123 2) None];
              printed := [] |} (Ok tt) eq_refl).
Defined.

(** Two records with the same poster URL: the export sends two requests
    for that URL. *)
Lemma export_fetches_shared_poster_twice :
  poster_url twin_a = poster_url twin_b
  /\ sent (snd (export_to_pdf site toy_image_setup toy_Paragraph_init build_ok
                  self123 "fa_ratings_123.pdf" (with_movies [twin_a; twin_b])))
     = [Get poster_alien (Some (headers self123));
        Get poster_alien (Some (headers self123))].
Proof. split; reflexivity. Qed.

Lemma export_requests_once_per_reference_witness :
  exists new,
    new = [Get poster_alien (Some (headers self123));
           Get flag_es (Some (headers self123));
           Get poster_alien (Some (headers self123))]
    /\ count_occ string_dec (map url new) poster_alien
       = references poster_alien [alien; twin_a].
Proof.
  destruct (export_requests_once_per_reference site toy_image_setup
              toy_Paragraph_init build_ok self123 "fa_ratings_123.pdf"
              (with_movies [alien; twin_a])) as [new [_ [_ [_ H]]]].
  destruct (H _ eq_refl) as [Hn Hc].
  exists new. split; [exact Hn|apply Hc].
Defined.


Lemma toy_markup_accepted (ms : list movie_data) :
  forallb (fun movie =>
             forallb (fun p => match toy_Paragraph_init (fst p) (snd p) with
                               | Ok _ => true
                               | Err _ => false
                               end)
                     ((title movie, movie_title_style _create_styles)
                      :: info_paragraphs _create_styles movie)) ms = true ->
  forall movie, In movie ms ->
                markup_accepted toy_Paragraph_init _create_styles movie.
Proof.
  intros H movie Hin. rewrite forallb_forall in H. specialize (H movie Hin).
  rewrite forallb_forall in H. apply Forall_forall. intros p Hp.
  specialize (H p Hp). now destruct (toy_Paragraph_init (fst p) (snd p)) as [[]|].
Defined.


(** The export of one record returns a document of two elements. *)
Lemma export_one_block_per_record_witness :
  exists doc s' blocks,
    export_to_pdf site toy_image_setup toy_Paragraph_init build_ok self123
      "fa_ratings_123.pdf" (with_movies [alien]) = (Ok doc, s')
    /\ story doc = flat_map (fun b => [b; _create_movie_separator]) blocks
    /\ List.length blocks = 1.
Proof.
  destruct (export_one_block_per_record site toy_image_setup toy_Paragraph_init
              build_ok self123 "fa_ratings_123.pdf" (with_movies [alien]))
    as [H1 H2].
  destruct (H2 (toy_markup_accepted [alien] eq_refl) (fun _ => eq_refl))
    as [doc [s' E]].
  destruct (H1 doc s' E) as [blocks [S [L _]]].
  exists doc, s', blocks. split; [exact E|]. split; [exact S|exact L].
Defined.

(** A record with both ratings empty: its block holds the rating
    paragraph all the same. *)
Lemma rating_line_unconditional_witness :
  exists doc s' poster_cell title_row info_cell,
    export_to_pdf site toy_image_setup toy_Paragraph_init build_ok self123
      "fa_ratings_123.pdf" (with_movies [twin_a]) = (Ok doc, s')
    /\ nth_error (story doc) 0
       = Some (Table [[CellList poster_cell; CellList info_cell]]
                     [(1 * inch)%Q; ((55 # 10) * inch)%Q] None
                     [Cmd "VALIGN" (0, 0)%Z (-1, -1)%Z ["TOP"];
                      Cmd "LEFTPADDING" (0, 0)%Z (-1, -1)%Z ["0"];
                      Cmd "RIGHTPADDING" (0, 0)%Z (-1, -1)%Z ["0"]])
    /\ info_cell
       = [title_row; Paragraph "<b></b> ()" (rating_style _create_styles);
          Spacer 1 4].
Proof.
  eexists. eexists.
  assert (E : export_to_pdf site toy_image_setup toy_Paragraph_init build_ok
                self123 "fa_ratings_123.pdf" (with_movies [twin_a])
              = (Ok _, _)) by reflexivity.
  destruct (rating_line_unconditional site toy_image_setup toy_Paragraph_init
              build_ok self123 "fa_ratings_123.pdf" _ _ _ 0 twin_a E eq_refl)
    as [pc [tr [ic [N [I _]]]]].
  exists pc, tr, ic. split; [exact E|]. split; [exact N|exact I].
Defined.

(* ------------------------------------------------------------------ *)
(** ** The further statements on the small site *)

Lemma poster_url_first_token_witness :
  no_space (poster_url alien)
  /\ (srcset_alien = poster_url alien
      \/ exists rest,
          srcset_alien = (poster_url alien ++ " " ++ rest)%string).
Proof.
  exact (poster_url_first_token item_alien row_alien
           (Tag "img" ["lazyload"] [("data-srcset", srcset_alien)] [])
           alien eq_refl eq_refl).
Defined.

Lemma poster_url_empty_iff_witness :
  poster_url bare_record = EmptyString <-> True.
Proof.
  exact (poster_url_empty_iff item_plain (el "div" ["row"] [item_plain])
           bare_record eq_refl).
Defined.

Lemma extracted_text_is_stripped_witness :
  strip (title alien) = title alien
  /\ strip (year alien) = year alien
  /\ strip (rating alien) = rating alien
  /\ strip (own_rating alien) = own_rating alien
  /\ strip (director alien) = director alien
  /\ strip (cast alien) = cast alien.
Proof.
  exact (extracted_text_is_stripped item_alien row_alien alien eq_refl).
Defined.

Lemma context_changes_own_rating_only_witness :
  exists d2,
    _extract_movie_data item_alien row_own_empty = Ok d2
    /\ title d2 = title alien /\ year d2 = year alien
    /\ rating d2 = rating alien
    /\ director d2 = director alien /\ cast d2 = cast alien
    /\ poster_url d2 = poster_url alien /\ flag_url d2 = flag_url alien.
Proof.
  exact (context_changes_own_rating_only item_alien row_alien row_own_empty
           alien eq_refl).
Defined.

Lemma own_rating_shared_by_siblings_witness :
  own_rating alien = own_rating (MovieData "Unknown" EmptyString EmptyString
                                   "8" EmptyString EmptyString EmptyString
                                   EmptyString).
Proof.
  exact (own_rating_shared_by_siblings item_alien item_plain row_alien
           alien _ eq_refl eq_refl).
Defined.

Lemma flag_url_empty_iff_no_flag_image_witness :
  (truthy (flag_url alien) = false <-> find "img" "nflag" item_alien = None)
  /\ (forall img,
        find "img" "nflag" item_alien = Some img ->
        flag_url alien
        = ("https://www.filmaffinity.com/" ++ get img "src" EmptyString)%string).
Proof.
  exact (flag_url_empty_iff_no_flag_image item_alien row_alien alien eq_refl).
Defined.

Lemma extract_raises_only_attribute_error_witness :
  AttributeError = AttributeError
  /\ (find "div" "mc-title" item_bare = None
      \/ find "div" "fa-avg-rat-box" item_bare = None).
Proof.
  exact (extract_raises_only_attribute_error item_bare row_alien
           AttributeError eq_refl).
Defined.

Lemma full_page_site_page2_down (q : nat) :
  1 <= q < 1 + 1 ->
  full_page site_page2_down toy_parser self123 (fun _ => [alien]) q.
Proof.
  intros Hq. assert (q = 1) as -> by lia.
  exists (mkResponse 200 "page-alien"). repeat split. discriminate.
Defined.

Lemma retrieval_network_error_propagates_witness :
  get_voted_movies site_page2_down toy_parser self123 5 state0 =
  Some (Err (Exception "ConnectionError" "connection reset"),
        {| movies := movies state0 ++ flat_map (fun _ => [alien]) (seq 1 1);
           sent := sent state0
                   ++ map (fun q => Get (listing_url self123 q) None) (seq 1 2);
           printed := printed state0 |}).
Proof.
  apply (retrieval_network_error_propagates site_page2_down toy_parser self123
           (fun _ => [alien]) 1 5 state0).
  - exact full_page_site_page2_down.
  - reflexivity.
  - lia.
Defined.

Lemma retrieval_keeps_partial_page_witness :
  get_voted_movies site_mixed toy_parser_mixed self123 5 state0 =
  Some (Err AttributeError,
        {| movies := movies state0 ++ flat_map (fun _ => []) (seq 1 0) ++ [alien];
           sent := sent state0
                   ++ map (fun q => Get (listing_url self123 q) None) (seq 1 1);
           printed := printed state0 |}).
Proof.
  apply (retrieval_keeps_partial_page site_mixed toy_parser_mixed self123
           (fun _ => []) 0 5 state0 AttributeError
           (mkResponse 200 "page-mixed")
           [(item_alien, row_mixed)] [] (item_bare, row_mixed) [alien]).
  - intros q Hq. lia.
  - reflexivity.
  - reflexivity.
  - reflexivity.
  - reflexivity.
  - reflexivity.
  - lia.
Defined.

Lemma retrieval_requests_consecutive_pages_witness :
  exists n,
    1 <= n <= 5
    /\ [Get (listing_url self123 1) None; Get (listing_url self123 2) None]
       = sent state0
         ++ map (fun q => Get (listing_url self123 q) None) (seq 1 n)
    /\ NoDup (map (fun q => Get (listing_url self123 q) None) (seq 1 n))
    /\ @nil string = printed state0.
Proof.
  exact (retrieval_requests_consecutive_pages site toy_parser self123 5 state0
           {| movies := [alien];
              sent := [Get (listing_url self123 1) None;
                       Get (listing_url self123 2) None];
              printed := [] |} (Ok tt) eq_refl).
Defined.

Lemma listing_url_injective_witness : 7 = 7.
Proof. exact (listing_url_injective self123 7 7 eq_refl). Defined.

Lemma export_keeps_records_witness :
  exists doc s',
    export_to_pdf site toy_image_setup toy_Paragraph_init build_ok self123
      "fa_ratings_123.pdf" (with_movies [alien; twin_a]) = (Ok doc, s')
    /\ movies s' = [alien; twin_a]
    /\ filename doc = "fa_ratings_123.pdf"
    /\ List.length (story doc) = 4.
Proof.
  eexists. eexists.
  assert (E : export_to_pdf site toy_image_setup toy_Paragraph_init build_ok
                self123 "fa_ratings_123.pdf" (with_movies [alien; twin_a])
              = (Ok _, _)) by reflexivity.
  destruct (export_keeps_records site toy_image_setup toy_Paragraph_init
              build_ok self123 "fa_ratings_123.pdf"
              (with_movies [alien; twin_a])) as [M H].
  destruct (H _ _ E) as [F L].
  split; [exact E|]. split; [reflexivity|]. split; [exact F|exact L].
Defined.

Lemma export_story_concat_witness :
  exists doc doc1 doc2,
    fst (export_to_pdf site toy_image_setup toy_Paragraph_init build_ok self123
           "fa_ratings_123.pdf" (with_movies [twin_a; alien])) = Ok doc
    /\ fst (export_to_pdf site toy_image_setup toy_Paragraph_init build_ok
              self123 "fa_ratings_123.pdf" (with_movies [twin_a])) = Ok doc1
    /\ fst (export_to_pdf site toy_image_setup toy_Paragraph_init build_ok
              self123 "fa_ratings_123.pdf" (with_movies [alien])) = Ok doc2
    /\ story doc = story doc1 ++ story doc2.
Proof.
  eexists. eexists. eexists.
  split; [reflexivity|]. split; [reflexivity|]. split; [reflexivity|].
  exact (export_story_concat site toy_image_setup toy_Paragraph_init build_ok
           self123 "fa_ratings_123.pdf"
           (with_movies [twin_a; alien]) (with_movies [twin_a])
           (with_movies [alien]) _ _ _ eq_refl eq_refl eq_refl eq_refl).
Defined.

Lemma export_without_urls_is_offline_witness :
  snd (export_to_pdf site toy_image_setup toy_Paragraph_init build_ok self123
         "fa_ratings_123.pdf" (with_movies [bare_record]))
  = with_movies [bare_record].
Proof.
  apply (export_without_urls_is_offline site toy_image_setup toy_Paragraph_init
           build_ok self123).
  intros movie [<-|[]]. split; reflexivity.
Defined.

Lemma fetched_poster_is_rendered_witness :
  _create_movie_poster_cell site toy_image_setup self123 alien state0 =
  (Ok [Image "PNG-poster" ((8 # 10) * inch) ((12 # 10) * inch)],
   {| movies := movies state0;
      sent := sent state0 ++ [Get poster_alien (Some (headers self123))];
      printed := printed state0 |}).
Proof.
  exact (fetched_poster_is_rendered site toy_image_setup self123 alien state0
           (mkResponse 200 "PNG-poster") eq_refl eq_refl eq_refl).
Defined.

(** A title that is not valid markup: the title table raises and the
    flag is not asked for.  The title of Alien: the flag is asked for
    and, its fetch failing, the row holds the title alone. *)
Lemma title_row_cells_witness :
  _create_movie_title_table site toy_image_setup toy_Paragraph_init self123
    bold _create_styles state0
  = (Err (Exception "ValueError"
            "Parse error: saw </para> instead of expected </b>"), state0)
  /\ exists rest s',
       _create_movie_title_table site toy_image_setup toy_Paragraph_init
         self123 alien _create_styles state0 =
       (Ok (Table
              [CellFlowable
                 (Paragraph "Alien" (movie_title_style _create_styles))
               :: rest]
              [((52 # 10) * inch)%Q; ((3 # 10) * inch)%Q] None
              [Cmd "VALIGN" (0, 0)%Z (-1, -1)%Z ["MIDDLE"];
               Cmd "ALIGN" (0, 0)%Z (0, 0)%Z ["LEFT"];
               Cmd "ALIGN" (1, 0)%Z (1, 0)%Z ["RIGHT"];
               Cmd "LEFTPADDING" (0, 0)%Z (-1, -1)%Z ["0"];
               Cmd "RIGHTPADDING" (0, 0)%Z (-1, -1)%Z ["0"]]), s')
       /\ rest = [].
Proof.
  split.
  - exact (proj1 (title_row_cells site toy_image_setup toy_Paragraph_init
                    self123 bold _create_styles state0) _ eq_refl).
  - destruct (proj2 (title_row_cells site toy_image_setup toy_Paragraph_init
                       self123 alien _create_styles state0) eq_refl)
      as [rest [s' [E [_ H]]]].
    exists rest, s'. split; [exact E|]. exact (H eq_refl).
Defined.

Lemma main_exports_what_was_retrieved_witness :
  (exists doc s3,
      main site toy_parser toy_image_setup toy_Paragraph_init build_ok self123
        5 "123" = Some (Ok doc, s3)
      /\ filename doc = "fa_ratings_123.pdf"
      /\ printed s3 =
         ["Please enter your FilmAffinity user ID: ";
          "Getting rated movies...";
          "Exporting to PDF: fa_ratings_123.pdf";
          "Error loading flag for Alien: connection refused";
          "Export completed! 1 movies have been exported."])
  /\ (exists s3,
        main site toy_parser toy_image_setup toy_Paragraph_init build_denied
          self123 5 "123"
        = Some (Err (Exception "PermissionError" "Permission denied"), s3)
        /\ printed s3 = ["Please enter your FilmAffinity user ID: ";
                         "Getting rated movies...";
                         "Exporting to PDF: fa_ratings_123.pdf";
                         "Error loading flag for Alien: connection refused"]).
Proof.
  split.
  - destruct (main_exports_what_was_retrieved site toy_parser toy_image_setup
                toy_Paragraph_init build_ok self123 5 "123"
                {| movies := [alien];
                   sent := [Get (listing_url self123 1) None;
                            Get (listing_url self123 2) None];
                   printed := printed greeted |} eq_refl eq_refl)
      as [H _].
    eexists. eexists.
    destruct (H _ _ eq_refl) as [E F].
    split; [exact E|]. split; [exact F|reflexivity].
  - destruct (main_exports_what_was_retrieved site toy_parser toy_image_setup
                toy_Paragraph_init build_denied self123 5 "123"
                {| movies := [alien];
                   sent := [Get (listing_url self123 1) None;
                            Get (listing_url self123 2) None];
                   printed := printed greeted |} eq_refl eq_refl)
      as [_ [H _]].
    eexists. split; [exact (H _ _ eq_refl)|reflexivity].
Defined.

Lemma main_stops_when_retrieval_raises_witness :
  main site_page2_down toy_parser toy_image_setup toy_Paragraph_init build_ok
    self123 5 "123" =
  Some (Err (Exception "ConnectionError" "connection reset"),
        {| movies := [alien];
           sent := [Get (listing_url self123 1) None;
                    Get (listing_url self123 2) None];
           printed := printed greeted |}).
Proof.
  exact (proj1 (main_stops_when_retrieval_raises site_page2_down toy_parser
                  toy_image_setup toy_Paragraph_init build_ok self123 5 "123"
                  _ _ eq_refl eq_refl)).
Defined.
